(** * login-authentication: the Express back end and the client-only front end

    A shallow embedding of the two request handlers of the back end
    ([POST /api/signup], [POST /api/login]) and of the submit handler of the
    client-only React front end, followed by the properties the
    specification states about them.

    What is outside the repository is a parameter or a small model of the
    JavaScript semantics the handlers rely on:
    - a request body and its members are any value [JSON.parse] can give;
    - property reads on a plain object go through [Object.prototype];
    - [bcryptjs] is a class ([Bcrypt]) for its string-to-string part, wrapped
      by the argument check the library performs before hashing;
    - the clock and the random salt are inputs of each request;
    - [users.json] and [loginLogs.json] are the documents they hold
      ([JSON.parse] of what [JSON.stringify] wrote), together with the trace
      of the file reads and writes that were performed. *)

From stdpp Require Import gmap strings list fin_maps pretty.

Local Open Scope string_scope.

(* ===================================================================== *)
(** ** JavaScript values and objects *)
(* ===================================================================== *)

Module JS.

(** A value that [JSON.parse] can produce, or [undefined]: what a member of
    the request body holds once destructured. A number is given by its
    canonical rendering, [String(n)], which is what its conversions to a
    boolean and to a property key look at. *)
#[local] Set Warnings "-register-all".
Inductive Value :=
| undefined
| JNull
| JBool (b : bool)
| JNumber (text : string)
| JString (s : string)
| JArray (items : list Value)
| JObject (members : gmap string Value).

(** [ToBoolean]: [undefined], [null], [false], zero and the empty string are
    falsy; arrays and objects are truthy. *)
Definition truthy (v : Value) : bool :=
  match v with
  | undefined | JNull => false
  | JBool b => b
  | JNumber t => negb (bool_decide (t = "0"))
  | JString s => negb (bool_decide (s = ""))
  | JArray _ | JObject _ => true
  end.

Definition typeof (v : Value) : string :=
  match v with
  | undefined => "undefined"
  | JBool _ => "boolean"
  | JNumber _ => "number"
  | JString _ => "string"
  | JNull | JArray _ | JObject _ => "object"
  end.

(** Exceptions a handler can raise. *)
Inductive Exn :=
| TypeError (msg : string)
| Error (msg : string).

#[global] Instance Exn_eq_dec : EqDecision Exn.
Proof. solve_decision. Defined.

Inductive Completion (A : Type) :=
| Normal (a : A)
| Throw (e : Exn).
Arguments Normal {A} a.
Arguments Throw {A} e.

(** [ToString]. An array is joined with commas ([Array.prototype.join]: a
    [null] or [undefined] element gives the empty string). A parsed object
    answers through [Object.prototype.toString], unless it has a member of
    its own called [toString]: that member is not callable, [valueOf] gives
    no primitive either, and the conversion throws. *)
Fixpoint ToString (v : Value) : Completion string :=
  match v with
  | undefined => Normal "undefined"
  | JNull => Normal "null"
  | JBool b => Normal (if b then "true" else "false")
  | JNumber t => Normal t
  | JString s => Normal s
  | JArray items =>
      (fix join (l : list Value) : Completion string :=
         match l with
         | [] => Normal ""
         | x :: rest =>
             match (match x with
                    | undefined | JNull => Normal ""
                    | _ => ToString x
                    end) with
             | Throw e => Throw e
             | Normal sx =>
                 match rest with
                 | [] => Normal sx
                 | _ :: _ =>
                     match join rest with
                     | Normal sr => Normal (sx ++ "," ++ sr)
                     | Throw e => Throw e
                     end
                 end
             end
         end) items
  | JObject members =>
      match members !! "toString" with
      | Some _ => Throw (TypeError "Cannot convert object to primitive value")
      | None => Normal "[object Object]"
      end
  end.

(** [ToPropertyKey], used by [users[username]]. *)
Definition ToPropertyKey (v : Value) : Completion string := ToString v.

(** The own property names of [Object.prototype], all of them bound to a
    function or (for [__proto__]) to the prototype object itself: every one
    of them is truthy, none has a [passwordHash] member. *)
Definition ObjectPrototype : list string :=
  [ "constructor"; "__defineGetter__"; "__defineSetter__"; "hasOwnProperty";
    "__lookupGetter__"; "__lookupSetter__"; "isPrototypeOf";
    "propertyIsEnumerable"; "toString"; "valueOf"; "__proto__";
    "toLocaleString" ].

(** The result of the property read [o[k]] on an object produced by
    [JSON.parse]: the own member, else the member of [Object.prototype],
    else [undefined]. *)
Inductive Slot (V : Type) :=
| Own (v : V)
| Inherited (k : string)
| Missing.
Arguments Own {V} v.
Arguments Inherited {V} k.
Arguments Missing {V}.

Definition Get {V : Type} (o : gmap string V) (k : string) : Slot V :=
  match o !! k with
  | Some v => Own v
  | None => if bool_decide (k ∈ ObjectPrototype) then Inherited k else Missing
  end.

(** [ToBoolean] of a property read whose own members are objects. *)
Definition present {V : Type} (s : Slot V) : bool :=
  match s with
  | Own _ | Inherited _ => true
  | Missing => false
  end.

(** What [req.body] can be after [bodyParser.json()]. *)
Inductive Body :=
| BUndefined
| BNull
| BBool (b : bool)
| BNumber (n : Z)
| BString (s : string)
| BArray (items : list Value)
| BObject (members : gmap string Value).

Definition is_object (b : Body) : bool :=
  match b with
  | BObject _ => true
  | _ => false
  end.

Definition body_truthy (b : Body) : bool :=
  match b with
  | BUndefined | BNull => false
  | BBool x => x
  | BNumber n => negb (bool_decide (n = 0%Z))
  | BString s => negb (bool_decide (s = ""))
  | BArray _ | BObject _ => true
  end.

(** A field that is missing or empty. *)
Definition missing_or_empty (v : Value) : Prop :=
  v = undefined ∨ v = JString "".

(** [b || {}] *)
Definition or_empty_object (b : Body) : Body :=
  if body_truthy b then b else BObject ∅.

(** The member [k] of a body object, for a [k] that is not a member of
    [Object.prototype] (see [request_fields_not_inherited]). *)
Definition member (o : gmap string Value) (k : string) : Value :=
  match o !! k with
  | Some v => v
  | None => undefined
  end.

(** [const { username, password } = b]: destructuring [undefined] or
    [null] throws; the wrappers of primitives and arrays have neither
    member. *)
Definition destructure (b : Body) : Completion (Value * Value) :=
  match b with
  | BUndefined =>
      Throw (TypeError "Cannot destructure property 'username' of 'undefined' as it is undefined.")
  | BNull =>
      Throw (TypeError "Cannot destructure property 'username' of 'null' as it is null.")
  | BObject o => Normal (member o "username", member o "password")
  | BBool _ | BNumber _ | BString _ | BArray _ => Normal (undefined, undefined)
  end.

(** Every request is in one of two cases: one of the two fields is falsy,
    or both are truthy. *)
Inductive Fields (body : Body) : Prop :=
| fields_falsy (u p : Value) :
    destructure (or_empty_object body) = Normal (u, p) →
    truthy u = false ∨ truthy p = false →
    Fields body
| fields_truthy (u p : Value) :
    destructure (or_empty_object body) = Normal (u, p) →
    truthy u = true → truthy p = true →
    Fields body.

End JS.

Import JS.

(* ===================================================================== *)
(** ** External collaborators: bcryptjs and the clock *)
(* ===================================================================== *)

(** The string part of [bcryptjs]: [hashSync(s, salt)] for a salt made by
    [genSaltSync(10)], and [compareSync(s, hash)] on two strings. *)
Class Bcrypt := {
  Salt : Type;
  hashString : string → Salt → string;
  compareString : string → string → bool
}.

(** A password matches every hash made from it. *)
Class BcryptCorrect `{Bcrypt} := {
  compare_hash : ∀ (p : string) (salt : Salt),
    compareString p (hashString p salt) = true
}.

(** [new Date()] and its two renderings. *)
Class Clock := {
  Date : Type;
  toISOString : Date → string;
  toLocaleString : Date → string
}.

(* ===================================================================== *)
(** ** The back end *)
(* ===================================================================== *)

Module Server.

Record CredentialRecord := {
  passwordHash : string;
  createdAt : string
}.

Record LogEntry := {
  username : Value;
  date : string;
  success : bool
}.

#[global] Instance CredentialRecord_eq_dec : EqDecision CredentialRecord.
Proof. solve_decision. Defined.

Inductive File := logFile | usersFile.

Inductive FsEvent :=
| readFileSync (f : File)
| writeFileSync (f : File).

(** The two documents and the file accesses performed so far. Both files
    hold what the server itself wrote there ([JSON.parse] succeeds on
    them): the store maps usernames to records, the log is a list of
    entries. *)
Record Disk := {
  users : gmap string CredentialRecord;
  logs : list LogEntry;
  trace : list FsEvent
}.

(** What [res.status(..).json({success, message})] sends. *)
Record Response := {
  status : nat;
  ok : bool;
  message : string
}.

#[global] Instance Response_eq_dec : EqDecision Response.
Proof. solve_decision. Defined.

(** State and exceptions, threaded through the handler. *)
Definition IO (A : Type) : Type := Disk → Completion A * Disk.

#[global] Instance IO_ret : MRet IO := λ A a d, (Normal a, d).
#[global] Instance IO_bind : MBind IO := λ A B f m d,
  match m d with
  | (Normal a, d') => f a d'
  | (Throw e, d') => (Throw e, d')
  end.

Definition lift {A : Type} (c : Completion A) : IO A := λ d, (c, d).

(** Record one file access. *)
Definition access (e : FsEvent) (d : Disk) : Disk :=
  {| users := users d; logs := logs d; trace := trace d ++ [e] |}.

(** [JSON.parse(fs.readFileSync(usersFile))] *)
Definition readUsers : IO (gmap string CredentialRecord) := λ d,
  (Normal (users d), access (readFileSync usersFile) d).

(** [fs.writeFileSync(usersFile, JSON.stringify(u, null, 2))] *)
Definition writeUsers (u : gmap string CredentialRecord) : IO unit := λ d,
  (Normal (),
   access (writeFileSync usersFile)
     {| users := u; logs := logs d; trace := trace d |}).

(** [JSON.parse(fs.readFileSync(logFile))] *)
Definition readLogs : IO (list LogEntry) := λ d,
  (Normal (logs d), access (readFileSync logFile) d).

(** [fs.writeFileSync(logFile, JSON.stringify(l, null, 2))] *)
Definition writeLogs (l : list LogEntry) : IO unit := λ d,
  (Normal (),
   access (writeFileSync logFile)
     {| users := users d; logs := l; trace := trace d |}).

Definition required : Response :=
  {| status := 400; ok := false;
     message := "Username and password are required" |}.
Definition exists_already : Response :=
  {| status := 409; ok := false; message := "Username already exists" |}.
Definition signup_ok : Response :=
  {| status := 200; ok := true; message := "Signup successful" |}.
Definition invalid : Response :=
  {| status := 401; ok := false;
     message := "Invalid username or password" |}.
Definition login_ok : Response :=
  {| status := 200; ok := true; message := "Login successful" |}.

Section Handlers.
Context {bcrypt : Bcrypt} {clock : Clock}.

(** [bcrypt.hashSync(s, salt)]: the library rejects a non-string. *)
Definition hashSync (s : Value) (salt : Salt) : Completion string :=
  match s with
  | JString p => Normal (hashString p salt)
  | _ => Throw (Error ("Illegal arguments: " ++ typeof s ++ ", string"))
  end.

(** [bcrypt.compareSync(s, hash)]: the library rejects a non-string. *)
Definition compareSync (s hash : Value) : Completion bool :=
  match s, hash with
  | JString p, JString h => Normal (compareString p h)
  | _, _ =>
      Throw (Error ("Illegal arguments: " ++ typeof s ++ ", " ++ typeof hash))
  end.

(** [user.passwordHash] *)
Definition passwordHash_of (user : Slot CredentialRecord) : Value :=
  match user with
  | Own r => JString (passwordHash r)
  | Inherited _ | Missing => undefined
  end.

(** [app.post('/api/signup', ...)] *)
Definition signup (body : Body) (salt : Salt) (now : Date) : IO Response :=
  '(username, password) ← lift (destructure (or_empty_object body));
  if negb (truthy username) || negb (truthy password) then mret required
  else
    users ← readUsers;
    key ← lift (ToPropertyKey username);
    if present (Get users key) then mret exists_already
    else
      passwordHash ← lift (hashSync password salt);
      writeUsers (<[key := {| passwordHash := passwordHash;
                              createdAt := toISOString now |}]> users);;
      mret signup_ok.

(** [app.post('/api/login', ...)] *)
Definition login (body : Body) (now : Date) : IO Response :=
  '(username, password) ← lift (destructure (or_empty_object body));
  if negb (truthy username) || negb (truthy password) then mret required
  else
    users ← readUsers;
    key ← lift (ToPropertyKey username);
    let user := Get users key in
    if negb (present user) then mret invalid
    else
      isValid ← lift (compareSync password (passwordHash_of user));
      let logEntry :=
        {| username := username;
           date := toLocaleString now;
           success := isValid |} in
      logs ← readLogs;
      writeLogs (logs ++ [logEntry]);;
      if negb isValid then mret invalid
      else mret login_ok.

(** What [signup] comes to once both fields are truthy (lemma
    [signup_truthy_eq]). *)
Definition signup_truthy (username password : Value) (salt : Salt)
    (now : Date) (d : Disk) : Completion Response * Disk :=
  let d1 := access (readFileSync usersFile) d in
  match ToPropertyKey username with
  | Throw e => (Throw e, d1)
  | Normal key =>
      if present (Get (users d) key) then (Normal exists_already, d1)
      else
        match hashSync password salt with
        | Throw e => (Throw e, d1)
        | Normal h =>
            (Normal signup_ok,
             access (writeFileSync usersFile)
               {| users := <[key := {| passwordHash := h;
                                       createdAt := toISOString now |}]>
                             (users d);
                  logs := logs d;
                  trace := trace d1 |})
        end
  end.

(** What [login] comes to once both fields are truthy (lemma
    [login_truthy_eq]). *)
Definition login_truthy (username password : Value) (now : Date) (d : Disk)
    : Completion Response * Disk :=
  let d1 := access (readFileSync usersFile) d in
  match ToPropertyKey username with
  | Throw e => (Throw e, d1)
  | Normal key =>
      let user := Get (users d) key in
      if negb (present user) then (Normal invalid, d1)
      else
        match compareSync password (passwordHash_of user) with
        | Throw e => (Throw e, d1)
        | Normal isValid =>
            (Normal (if isValid then login_ok else invalid),
             access (writeFileSync logFile)
               {| users := users d;
                  logs := logs d ++ [ {| username := username;
                                         date := toLocaleString now;
                                         success := isValid |} ];
                  trace := trace (access (readFileSync logFile) d1) |})
        end
  end.

(** What [signup] comes to once both fields are non-empty strings
    (lemma [signup_post]). *)
Definition signup_outcome (u p : string) (salt : Salt) (now : Date)
    (d : Disk) : Completion Response * Disk :=
  if present (Get (users d) u)
  then (Normal exists_already, access (readFileSync usersFile) d)
  else (Normal signup_ok,
        access (writeFileSync usersFile)
          {| users := <[u := {| passwordHash := hashString p salt;
                                createdAt := toISOString now |}]> (users d);
             logs := logs d;
             trace := trace (access (readFileSync usersFile) d) |}).

(** What [login] comes to once both fields are non-empty strings
    (lemma [login_post]). *)
Definition login_outcome (u p : string) (now : Date) (d : Disk)
    : Completion Response * Disk :=
  let d1 := access (readFileSync usersFile) d in
  match Get (users d) u with
  | Missing => (Normal invalid, d1)
  | Inherited _ => (Throw (Error "Illegal arguments: string, undefined"), d1)
  | Own r =>
      let isValid := compareString p (passwordHash r) in
      (Normal (if isValid then login_ok else invalid),
       access (writeFileSync logFile)
         {| users := users d;
            logs := logs d ++ [ {| username := JString u;
                                   date := toLocaleString now;
                                   success := isValid |} ];
            trace := trace (access (readFileSync logFile) d1) |})
  end.

(** One request to the server; the salt and the clock reading are what
    [genSaltSync] and [new Date()] return while it is handled. *)
Inductive Call :=
| Register (body : Body) (salt : Salt) (now : Date)
| Authenticate (body : Body) (now : Date).

Definition handle (c : Call) : IO Response :=
  match c with
  | Register body salt now => signup body salt now
  | Authenticate body now => login body now
  end.

(** Requests are handled one after the other (synchronous handlers). *)
Fixpoint serve (cs : list Call) (d : Disk)
  : list (Completion Response) * Disk :=
  match cs with
  | [] => ([], d)
  | c :: cs' =>
      let '(r, d') := handle c d in
      let '(rs, d'') := serve cs' d' in
      (r :: rs, d'')
  end.




End Handlers.

(** The status code the client sees: Express answers an exception thrown
    by a handler with 500. *)
Definition http_status (c : Completion Response) : nat :=
  match c with
  | Normal r => status r
  | Throw _ => 500
  end.

(** The body [{username: u, password: p}]. *)
Definition post (u p : string) : Body :=
  BObject (<["username" := JString u]> (<["password" := JString p]> ∅)).

(** The body [{username: u, password: p}] for any two values. *)
Definition post_values (u p : Value) : Body :=
  BObject (<["username" := u]> (<["password" := p]> ∅)).

(** The state right after start-up on a fresh directory: [{}] and [[]]. *)
Definition fresh : Disk := {| users := ∅; logs := []; trace := [] |}.

End Server.

(* ===================================================================== *)
(** ** The client-only front end *)
(* ===================================================================== *)

Module Frontend.

Inductive View := login | signup | dashboard.

Record User := { username : string }.

(** State of [App]. *)
Record AppState := {
  view : View;
  user : option User
}.

Definition handleAuthSuccess (u : User) (a : AppState) : AppState :=
  {| view := dashboard; user := Some u |}.

Definition handleLogout (a : AppState) : AppState :=
  {| view := login; user := None |}.

(** What a handler does besides updating React state. [fetch] is how the
    page would reach the back end. *)
Inductive Effect :=
| preventDefault
| setTimeout (ms : nat)
| fetch (url : string)
| onSuccess (u : User)
| onSwitch (v : View).

Definition is_fetch (e : Effect) : bool :=
  match e with
  | fetch _ => true
  | _ => false
  end.

Module LoginForm.

(** State of the form; [typed] and [password] are the two inputs. *)
Record State := {
  typed : string;
  password : string;
  loading : bool;
  error : string
}.

Definition setError (m : string) (s : State) : State :=
  {| typed := typed s; password := password s;
     loading := loading s; error := m |}.

Definition setLoading (b : bool) (s : State) : State :=
  {| typed := typed s; password := password s;
     loading := b; error := error s |}.

Definition message_of (e : Exn) : string :=
  match e with
  | TypeError m | Error m => m
  end.

(** [submit], for a parent whose state is [P] and whose [onSuccess]
    callback is [callback]. *)
Definition submit {P : Type} (callback : User → P → Completion P)
    (s : State) (p : P) : State * P * list Effect :=
  let fx := [preventDefault] in
  let s := setError "" s in
  let s := setLoading true s in
  (* try *)
  let fx := (fx ++ [setTimeout 300])%list in
  let u := {| username := typed s |} in
  match callback u p with
  | Normal p' =>
      (* finally *)
      (setLoading false s, p', (fx ++ [onSuccess u])%list)
  | Throw err =>
      (* catch, finally *)
      let m := message_of err in
      let s := setError (if bool_decide (m = "") then "Server error" else m) s in
      (setLoading false s, p, (fx ++ [onSuccess u])%list)
  end.

End LoginForm.

(** [App] renders [<LoginForm onSuccess={handleAuthSuccess} .../>] while
    the view is ['login']: submitting the form runs [submit] against the
    state of [App]. *)
Definition App_submit (s : LoginForm.State) (a : AppState)
  : LoginForm.State * AppState * list Effect :=
  LoginForm.submit (λ u a, Normal (handleAuthSuccess u a)) s a.

End Frontend.

(* ===================================================================== *)
(** ** Reference instances of the collaborators *)
(* ===================================================================== *)

Module Reference.

(** A stand-in for bcrypt: the hash keeps the password in front of the
    salt, and a password matches the hashes that start with it. *)
#[export] Instance bcrypt : Bcrypt := {|
  Salt := string;
  hashString p salt := p ++ "$" ++ salt;
  compareString p h := String.prefix (p ++ "$") h
|}.

(** Instants are seconds since the epoch. *)
#[export] Instance clock : Clock := {|
  Date := nat;
  toISOString t := "iso:" ++ pretty t;
  toLocaleString t := "local:" ++ pretty t
|}.

End Reference.

(* ===================================================================== *)
(** ** Start-up of the back end *)
(* ===================================================================== *)

Module Startup.

(** The directory of the server when the process starts: each of the two
    files is absent or has some content, which start-up does not look at. *)
Record Directory := {
  logFile_text : option string;
  usersFile_text : option string
}.

(** [if (!fs.existsSync(logFile)) fs.writeFileSync(logFile, '[]')] *)
Definition ensure_logFile (dir : Directory) : Directory :=
  match logFile_text dir with
  | Some _ => dir
  | None => {| logFile_text := Some "[]"; usersFile_text := usersFile_text dir |}
  end.

(** [if (!fs.existsSync(usersFile)) fs.writeFileSync(usersFile, '{}')] *)
Definition ensure_usersFile (dir : Directory) : Directory :=
  match usersFile_text dir with
  | Some _ => dir
  | None => {| logFile_text := logFile_text dir; usersFile_text := Some "{}" |}
  end.

(** "Ensure storage files exist" *)
Definition ensure (dir : Directory) : Directory :=
  ensure_usersFile (ensure_logFile dir).

End Startup.

(* ===================================================================== *)
(** ** Accounting over the responses of the back end *)
(* ===================================================================== *)

Module Audit.

Definition is_login_ok (c : Completion Server.Response) : bool :=
  match c with
  | Normal r => bool_decide (r = Server.login_ok)
  | Throw _ => false
  end.

Definition is_signup_ok (c : Completion Server.Response) : bool :=
  match c with
  | Normal r => bool_decide (r = Server.signup_ok)
  | Throw _ => false
  end.

Definition is_invalid (c : Completion Server.Response) : bool :=
  match c with
  | Normal r => bool_decide (r = Server.invalid)
  | Throw _ => false
  end.

(** The number of elements of [l] that satisfy [f]. *)
Definition count {A : Type} (f : A → bool) (l : list A) : nat :=
  length (List.filter f l).

(** No member name of [Object.prototype] is a key of the store. *)
Definition no_inherited_key (d : Server.Disk) : Prop :=
  ∀ k, k ∈ ObjectPrototype → Server.users d !! k = None.

End Audit.

(* ===================================================================== *)
(** ** The client-only front end: the other form and [App] *)
(* ===================================================================== *)

Module ClientApp.

Import Frontend.

(** [setView], as [App] passes it for [onSwitch]. *)
Definition setView (v : View) (a : AppState) : AppState :=
  {| view := v; user := user a |}.

Module SignupForm.

(** The form keeps the same four pieces of state as [LoginForm]. *)
Definition State : Type := LoginForm.State.

(** [submit], for a parent whose state is [P] and whose [onSwitch]
    callback is [callback]. *)
Definition submit {P : Type} (callback : View → P → Completion P)
    (s : State) (p : P) : State * P * list Effect :=
  let fx := [preventDefault] in
  let s := LoginForm.setError "" s in
  let s := LoginForm.setLoading true s in
  (* try *)
  let fx := (fx ++ [setTimeout 300])%list in
  match callback login p with
  | Normal p' =>
      (* finally *)
      (LoginForm.setLoading false s, p', (fx ++ [onSwitch login])%list)
  | Throw err =>
      (* catch, finally *)
      let m := LoginForm.message_of err in
      let s :=
        LoginForm.setError (if bool_decide (m = "") then "Server error" else m) s in
      (LoginForm.setLoading false s, p, (fx ++ [onSwitch login])%list)
  end.

End SignupForm.

(** What [App] shows. *)
Inductive Screen :=
| LoginFormScreen
| SignupFormScreen
| DashboardScreen (greeting : string).

(** [Hello, {user?.username}] *)
Definition greeting (u : option User) : string :=
  "Hello, " ++ match u with
               | Some x => username x
               | None => ""
               end.

Definition render (a : AppState) : Screen :=
  match view a with
  | login => LoginFormScreen
  | signup => SignupFormScreen
  | dashboard => DashboardScreen (greeting (user a))
  end.

(** What the visitor can do: fill and submit the form on screen, click the
    link under it ([Sign Up] on the login form, [Sign In] on the signup
    form), or click [Log Out] on the dashboard. *)
Inductive Event :=
| SubmitLogin (typed password : string)
| SubmitSignup (typed password : string)
| ClickSwitch
| ClickLogout.

(** A freshly mounted form holding what was typed. *)
Definition filled (typed password : string) : LoginForm.State :=
  {| LoginForm.typed := typed; LoginForm.password := password;
     LoginForm.loading := false; LoginForm.error := "" |}.

(** One event; an event for a control that is not on screen changes
    nothing. *)
Definition step (e : Event) (a : AppState) : AppState :=
  match view a, e with
  | login, SubmitLogin t p => (App_submit (filled t p) a).1.2
  | login, ClickSwitch => setView signup a
  | signup, SubmitSignup t p =>
      (SignupForm.submit (λ v a, Normal (setView v a)) (filled t p) a).1.2
  | signup, ClickSwitch => setView login a
  | dashboard, ClickLogout => handleLogout a
  | _, _ => a
  end.

(** [useState('login')], [useState(null)] *)
Definition initial : AppState := {| view := login; user := None |}.

Definition run (es : list Event) (a : AppState) : AppState :=
  fold_left (λ a e, step e a) es a.

End ClientApp.

(* ===================================================================== *)
(** ** The front end on the identity platform's SDK *)
(* ===================================================================== *)

Module Firebase.

(** A JavaScript string as its UTF-16 code units, which is what [.length]
    counts. *)
Definition CodeUnits : Type := list N.

Inductive View := login | register | dashboard.

#[global] Instance View_eq_dec : EqDecision View.
Proof. solve_decision. Defined.

(** Calls into the SDK. *)
Inductive SdkCall :=
| signInWithCustomToken (token : string)
| signInAnonymously
| signOut.

#[global] Instance SdkCall_eq_dec : EqDecision SdkCall.
Proof. solve_decision. Defined.

(** How the SDK answers during one run: each promise resolves or rejects. *)
Record Sdk := {
  custom_token_result : Completion unit;
  anonymous_result : Completion unit;
  sign_out_result : Completion unit
}.

(** [initialAuthToken] is [null] ([None]) when the hosting page defines no
    [__initial_auth_token], else the string it provides.
    [if (initialAuthToken)]: *)
Definition token_truthy (token : option string) : bool :=
  match token with
  | Some t => negb (bool_decide (t = ""))
  | None => false
  end.

(** [authenticateUser(auth)]: its completion and the SDK calls it made. *)
Definition authenticateUser (token : option string) (sdk : Sdk)
    : Completion unit * list SdkCall :=
  match token with
  | Some t =>
      if token_truthy token then
        match custom_token_result sdk with
        | Normal _ => (Normal (), [signInWithCustomToken t])
        | Throw _ =>
            (* Fallback to anonymous sign-in if custom token fails *)
            (anonymous_result sdk, [signInWithCustomToken t; signInAnonymously])
        end
      else (anonymous_result sdk, [signInAnonymously])
  | None => (anonymous_result sdk, [signInAnonymously])
  end.

(** State of [App]; [db] and [auth] are set once the SDK is initialised. *)
Record AppState := {
  view : View;
  db : bool;
  auth : bool;
  userId : option string;
  isAuthReady : bool
}.

Definition setView (v : View) (a : AppState) : AppState :=
  {| view := v; db := db a; auth := auth a; userId := userId a;
     isAuthReady := isAuthReady a |}.

Definition setUserId (u : option string) (a : AppState) : AppState :=
  {| view := view a; db := db a; auth := auth a; userId := u;
     isAuthReady := isAuthReady a |}.

Definition setIsAuthReady (b : bool) (a : AppState) : AppState :=
  {| view := view a; db := db a; auth := auth a; userId := userId a;
     isAuthReady := b |}.

(** The five [useState] initial values. *)
Definition initial : AppState :=
  {| view := login; db := false; auth := false; userId := None;
     isAuthReady := false |}.

(** The callback given to [onAuthStateChanged]. It is created by the effect
    that runs once ([useEffect(.., [])]), so the [view] it reads is the one
    of the render it was created in, [view_at_mount]; [user] is the signed-in
    user's [uid], or [None] for [null]. *)
Definition authListener (view_at_mount : View) (u : option string)
    (a : AppState) : AppState :=
  let a :=
    match u with
    | Some uid => setView dashboard (setUserId (Some uid) a)
    | None =>
        let a := setUserId None a in
        (* Only switch to login if we are not actively registering *)
        if negb (bool_decide (view_at_mount = register)) then setView login a
        else a
    end in
  setIsAuthReady true a.

(** The listener [App] installs: the effect belongs to the first render,
    whose view is the initial one. *)
Definition installed_listener : option string → AppState → AppState :=
  authListener (view initial).

Definition handleAuthSuccess (a : AppState) : AppState := setView dashboard a.

(** [handleLogout]: the SDK calls made; every rejection is caught. *)
Definition handleLogout (a : AppState) (token : option string) (sdk : Sdk)
    : list SdkCall :=
  if auth a then
    match sign_out_result sdk with
    | Normal _ => (signOut :: (authenticateUser token sdk).2)%list
    | Throw _ => [signOut]
    end
  else [].

Inductive FormType := login_form | register_form.

(** What [App] puts in [content]. *)
Inductive Content :=
| Connecting
| DashboardFor (uid : string)
| AuthFormOf (type : FormType).

(** [userId] as a condition: [null] and the empty string are falsy. *)
Definition uid_truthy (u : option string) : bool :=
  match u with
  | Some uid => negb (bool_decide (uid = ""))
  | None => false
  end.

Definition render (a : AppState) : Content :=
  if negb (isAuthReady a) then Connecting
  else if uid_truthy (userId a) && bool_decide (view a = dashboard) then
    DashboardFor (default "" (userId a))
  else
    AuthFormOf (if bool_decide (view a = register) then register_form
                else login_form).

(** What [handleSubmit] does besides updating React state. *)
Inductive Effect :=
| preventDefault
| setTimeout (ms : nat)
| onAuthSuccess
| sdk_call (c : SdkCall).

Module AuthForm.

Record State := {
  email : CodeUnits;
  password : CodeUnits;
  isLoading : bool;
  error : option string
}.

Definition setError (m : option string) (s : State) : State :=
  {| email := email s; password := password s; isLoading := isLoading s;
     error := m |}.

Definition setIsLoading (b : bool) (s : State) : State :=
  {| email := email s; password := password s; isLoading := b;
     error := error s |}.

Definition invalid_credentials : string :=
  "Invalid credentials. Please check email and password (min 6 characters).".

Definition unexpected : string :=
  "An unexpected error occurred during authentication.".

Definition message_of (e : Exn) : string :=
  match e with
  | TypeError m | Error m => m
  end.

(** The [catch] block. *)
Definition caught (err : Exn) (s : State) : State :=
  let m := message_of err in
  let s := setError (Some (if bool_decide (m = "") then unexpected else m)) s in
  setIsLoading false s.

(** [handleSubmit], for a parent whose state is [P] and whose
    [onAuthSuccess] callback is [callback]. *)
Definition handleSubmit {P : Type} (callback : P → Completion P)
    (s : State) (p : P) : State * P * list Effect :=
  let fx := [preventDefault] in
  let s := setError None s in
  let s := setIsLoading true s in
  (* try *)
  let fx := (fx ++ [setTimeout 800])%list in
  if (length (email s) <? 5)%nat || (length (password s) <? 6)%nat then
    (caught (Error invalid_credentials) s, p, fx)
  else
    match callback p with
    | Normal p' => (s, p', (fx ++ [onAuthSuccess])%list)
    | Throw err => (caught err s, p, (fx ++ [onAuthSuccess])%list)
    end.

End AuthForm.

(** Submitting the form [App] renders: [onAuthSuccess={handleAuthSuccess}]. *)
Definition App_submit (s : AuthForm.State) (a : AppState)
  : AuthForm.State * AppState * list Effect :=
  AuthForm.handleSubmit (λ a, Normal (handleAuthSuccess a)) s a.

End Firebase.

(* ===================================================================== *)
(** ** Properties of the back end *)
(* ===================================================================== *)

Import Server.

(** Neither request field can be found on [Object.prototype], so reading it
    from the body yields the own member or [undefined]. *)
Lemma request_fields_not_inherited :
  ("username" ∉ ObjectPrototype) ∧ ("password" ∉ ObjectPrototype).
Proof. split; apply (bool_decide_unpack _); vm_compute; exact I. Qed.

Lemma truthy_JString (s : string) : s ≠ "" → truthy (JString s) = true.
Proof. intros Hs. unfold truthy. by rewrite bool_decide_eq_false_2. Qed.

Lemma missing_or_empty_falsy (v : Value) :
  missing_or_empty v → truthy v = false.
Proof. by intros [-> | ->]. Qed.

Lemma truthy_string_inv (s : string) : truthy (JString s) = true → s ≠ "".
Proof. by intros Ht ->. Qed.

Lemma destructure_post (u p : string) :
  destructure (or_empty_object (post u p)) = Normal (JString u, JString p).
Proof.
  unfold post, or_empty_object, destructure, member; simpl.
  rewrite lookup_insert_eq.
  rewrite lookup_insert_ne by done.
  by rewrite lookup_insert_eq.
Qed.

(** The guard [req.body || {}] leaves nothing for the destructuring to
    throw on. *)
Lemma destructure_guarded (body : Body) :
  ∃ u p, destructure (or_empty_object body) = Normal (u, p).
Proof.
  destruct body as [| |[]|n|s|l|o]; unfold or_empty_object; simpl; eauto.
  - destruct (bool_decide (n = 0%Z)); simpl; eauto.
  - destruct (bool_decide (s = "")); simpl; eauto.
Qed.

Lemma Get_empty_present {V : Type} (k : string) :
  present (Get (∅ : gmap string V) k) = true ↔ k ∈ ObjectPrototype.
Proof.
  unfold Get. rewrite lookup_empty.
  destruct (decide (k ∈ ObjectPrototype)) as [Hk | Hk].
  - by rewrite bool_decide_eq_true_2.
  - by rewrite bool_decide_eq_false_2.
Qed.

Lemma Get_Missing {V : Type} (o : gmap string V) (k : string) :
  Get o k = Missing ↔ o !! k = None ∧ k ∉ ObjectPrototype.
Proof.
  unfold Get. destruct (o !! k) as [v|]; [by split; [| intros []] |].
  destruct (decide (k ∈ ObjectPrototype)) as [Hk | Hk].
  - rewrite bool_decide_eq_true_2 by done. by split; [| intros []].
  - by rewrite bool_decide_eq_false_2.
Qed.

Lemma Get_Own {V : Type} (o : gmap string V) (k : string) (v : V) :
  Get o k = Own v ↔ o !! k = Some v.
Proof.
  unfold Get. destruct (o !! k) as [w|].
  - split; congruence.
  - by destruct (bool_decide (k ∈ ObjectPrototype)).
Qed.

Lemma inherited_nonempty (k : string) : k ∈ ObjectPrototype → k ≠ "".
Proof.
  intros Hk ->. revert Hk. apply (bool_decide_unpack _). vm_compute. exact I.
Qed.

Section BackEnd.
Context {bcrypt : Bcrypt} {clock : Clock}.

Lemma signup_truthy_eq (body : Body) (u p : Value) (salt : Salt)
    (now : Date) (d : Disk) :
  destructure (or_empty_object body) = Normal (u, p) →
  truthy u = true → truthy p = true →
  signup body salt now d = signup_truthy u p salt now d.
Proof.
  intros Hb Hu Hp. unfold signup, signup_truthy, mbind, IO_bind, lift.
  rewrite Hb, Hu, Hp. simpl.
  destruct (ToPropertyKey u) as [key|e]; [| done].
  destruct (present (Get (users d) key)); [done |].
  by destruct (hashSync p salt).
Qed.

Lemma login_truthy_eq (body : Body) (u p : Value) (now : Date) (d : Disk) :
  destructure (or_empty_object body) = Normal (u, p) →
  truthy u = true → truthy p = true →
  login body now d = login_truthy u p now d.
Proof.
  intros Hb Hu Hp. unfold login, login_truthy, mbind, IO_bind, lift.
  rewrite Hb, Hu, Hp. simpl.
  destruct (ToPropertyKey u) as [key|e]; [| done].
  destruct (present (Get (users d) key)); simpl; [| done].
  destruct (compareSync p (passwordHash_of (Get (users d) key))) as [v|e];
    [| done].
  by destruct v.
Qed.

Lemma signup_fields (body : Body) (u p : string) (salt : Salt) (now : Date)
    (d : Disk) :
  destructure (or_empty_object body) = Normal (JString u, JString p) →
  u ≠ "" → p ≠ "" →
  signup body salt now d = signup_outcome u p salt now d.
Proof.
  intros Hb Hu Hp.
  rewrite (signup_truthy_eq body _ _ salt now d Hb) by by apply truthy_JString.
  unfold signup_truthy, signup_outcome. simpl.
  by destruct (present (Get (users d) u)).
Qed.

Lemma signup_post (u p : string) (salt : Salt) (now : Date) (d : Disk) :
  u ≠ "" → p ≠ "" →
  signup (post u p) salt now d = signup_outcome u p salt now d.
Proof. apply signup_fields, destructure_post. Qed.

Lemma login_fields (body : Body) (u p : string) (now : Date) (d : Disk) :
  destructure (or_empty_object body) = Normal (JString u, JString p) →
  u ≠ "" → p ≠ "" →
  login body now d = login_outcome u p now d.
Proof.
  intros Hb Hu Hp.
  rewrite (login_truthy_eq body _ _ now d Hb) by by apply truthy_JString.
  unfold login_truthy, login_outcome. simpl.
  by destruct (Get (users d) u) as [r|k|].
Qed.

Lemma login_post (u p : string) (now : Date) (d : Disk) :
  u ≠ "" → p ≠ "" →
  login (post u p) now d = login_outcome u p now d.
Proof. apply login_fields, destructure_post. Qed.

Lemma fields_cases (body : Body) : Fields body.
Proof.
  destruct (destructure_guarded body) as (u & p & Hb).
  destruct (truthy u) eqn:Hu; [destruct (truthy p) eqn:Hp |].
  - by apply (fields_truthy body u p Hb).
  - apply (fields_falsy body u p Hb). by right.
  - apply (fields_falsy body u p Hb). by left.
Qed.

Lemma signup_rejects_falsy (body : Body) (u p : Value) (salt : Salt)
    (now : Date) (d : Disk) :
  destructure (or_empty_object body) = Normal (u, p) →
  truthy u = false ∨ truthy p = false →
  signup body salt now d = (Normal required, d).
Proof.
  intros Hd Hf. unfold signup, mbind, IO_bind, lift. rewrite Hd.
  by destruct Hf as [-> | ->]; destruct (truthy _).
Qed.

Lemma login_rejects_falsy (body : Body) (u p : Value) (now : Date)
    (d : Disk) :
  destructure (or_empty_object body) = Normal (u, p) →
  truthy u = false ∨ truthy p = false →
  login body now d = (Normal required, d).
Proof.
  intros Hd Hf. unfold login, mbind, IO_bind, lift. rewrite Hd.
  by destruct Hf as [-> | ->]; destruct (truthy _).
Qed.

(** Without the guard the destructuring of an absent body throws. *)
Example destructure_unguarded :
  destructure BUndefined =
    Throw (TypeError "Cannot destructure property 'username' of 'undefined' as it is undefined.").
Proof. reflexivity. Qed.

(** C5. A register or authenticate call whose username or password is
    missing or empty is answered with the 400 validation response, and the
    disk it leaves is the disk it found: the trace of file accesses has no
    new read or write, and both documents are the same. *)
Theorem validation_precedes_storage (body : Body) (u p : Value)
    (salt : Salt) (now : Date) (d : Disk) :
  destructure (or_empty_object body) = Normal (u, p) →
  missing_or_empty u ∨ missing_or_empty p →
  signup body salt now d = (Normal required, d) ∧
  login body now d = (Normal required, d) ∧
  status required = 400.
Proof.
  intros Hd Hf.
  assert (truthy u = false ∨ truthy p = false) as Hf'.
  { destruct Hf as [Hf | Hf]; [left | right]; by apply missing_or_empty_falsy. }
  split; [| split; [| done]].
  - by eapply signup_rejects_falsy.
  - by eapply login_rejects_falsy.
Qed.

(** C10. When the body of a signup or login request is absent or is not an
    object, the handler does not throw: behind the guard [req.body || {}]
    both fields read as missing and the request is answered with the 400
    validation response. *)
Theorem non_object_body_answered_400 (body : Body) (salt : Salt)
    (now : Date) (d : Disk) :
  is_object body = false →
  signup body salt now d = (Normal required, d) ∧
  login body now d = (Normal required, d).
Proof.
  intros Hb.
  assert (destructure (or_empty_object body) = Normal (undefined, undefined))
    as Hd.
  { destruct body as [| |[]|n|s|l|o]; try done; unfold or_empty_object; simpl.
    - by destruct (bool_decide (n = 0%Z)).
    - by destruct (bool_decide (s = "")). }
  split.
  - eapply signup_rejects_falsy; [exact Hd | by left].
  - eapply login_rejects_falsy; [exact Hd | by left].
Qed.

(** *** Frame properties *)

Lemma signup_truthy_frame (u p : Value) (salt : Salt) (now : Date)
    (d : Disk) :
  logs (signup_truthy u p salt now d).2 = logs d ∧
  users d ⊆ users (signup_truthy u p salt now d).2.
Proof.
  unfold signup_truthy.
  destruct (ToPropertyKey u) as [key|e]; [| done].
  destruct (Get (users d) key) as [r|k|] eqn:Hg; simpl; [done.. |].
  destruct (hashSync p salt) as [h|e]; [| done].
  split; [done |]. simpl.
  apply insert_subseteq. by apply Get_Missing in Hg as [? _].
Qed.

Lemma login_truthy_frame (u p : Value) (now : Date) (d : Disk) :
  users (login_truthy u p now d).2 = users d ∧
  logs d `prefix_of` logs (login_truthy u p now d).2.
Proof.
  unfold login_truthy.
  destruct (ToPropertyKey u) as [key|e]; [| done].
  destruct (present (Get (users d) key)); simpl; [| done].
  destruct (compareSync p _) as [v|e]; [| done].
  split; [done |]. by apply prefix_app_r.
Qed.

Lemma login_frame (body : Body) (now : Date) (d : Disk) :
  users (login body now d).2 = users d ∧
  logs d `prefix_of` logs (login body now d).2.
Proof.
  destruct (fields_cases body) as [u p Hb Hf | u p Hb Hu Hp].
  - by rewrite (login_rejects_falsy body u p now d Hb Hf).
  - rewrite (login_truthy_eq body u p now d Hb Hu Hp).
    apply login_truthy_frame.
Qed.

Lemma signup_frame (body : Body) (salt : Salt) (now : Date) (d : Disk) :
  logs (signup body salt now d).2 = logs d ∧
  users d ⊆ users (signup body salt now d).2.
Proof.
  destruct (fields_cases body) as [u p Hb Hf | u p Hb Hu Hp].
  - by rewrite (signup_rejects_falsy body u p salt now d Hb Hf).
  - rewrite (signup_truthy_eq body u p salt now d Hb Hu Hp).
    apply signup_truthy_frame.
Qed.

(** C7. Authenticate leaves every credential record as it is (none added,
    updated or deleted) and only extends the attempt log at its end;
    register leaves the attempt log as it is and keeps every existing
    credential record with its value. *)
Theorem handlers_preserve_state (body : Body) (salt : Salt) (now : Date)
    (d : Disk) :
  users (login body now d).2 = users d ∧
  logs d `prefix_of` logs (login body now d).2 ∧
  logs (signup body salt now d).2 = logs d ∧
  users d ⊆ users (signup body salt now d).2.
Proof.
  destruct (login_frame body now d) as [? ?].
  by destruct (signup_frame body salt now d) as [? ?].
Qed.

(** *** Sequences of requests *)

Lemma serve_cons (c : Call) (cs : list Call) (d : Disk) :
  serve (c :: cs) d =
    ((handle c d).1 :: (serve cs (handle c d).2).1,
     (serve cs (handle c d).2).2).
Proof.
  simpl. destruct (handle c d) as [r d']. simpl.
  by destruct (serve cs d') as [rs d''].
Qed.





(** *** What reaches the attempt log *)











(** C9. On an empty credential store the lookup [users[u]] is truthy for
    exactly the names [u] of the members of [Object.prototype], such as
    [constructor] and [toString], none of which was ever registered. For
    such a name, register answers 409 and leaves the store empty, and
    authenticate goes past the unknown-user branch: it hands the undefined
    stored hash to the hash comparison, whose completion (an exception) is
    the completion of the request. *)
Theorem inherited_names_pass_for_users (u p : string) (salt : Salt)
    (now : Date) (d : Disk) :
  users d = ∅ → p ≠ "" →
  (present (Get (users d) u) = true ↔ u ∈ ObjectPrototype) ∧
  ("constructor" ∈ ObjectPrototype) ∧ ("toString" ∈ ObjectPrototype) ∧
  (u ∈ ObjectPrototype →
     signup (post u p) salt now d
       = (Normal exists_already, access (readFileSync usersFile) d) ∧
     users (signup (post u p) salt now d).2 = ∅ ∧
     ∃ e, compareSync (JString p) undefined = Throw e ∧
          login (post u p) now d
            = (Throw e, access (readFileSync usersFile) d)).
Proof.
  intros Hd Hp. rewrite Hd.
  split; [apply Get_empty_present |].
  split; [apply (bool_decide_unpack _); vm_compute; exact I |].
  split; [apply (bool_decide_unpack _); vm_compute; exact I |].
  intros Hu. pose proof (inherited_nonempty _ Hu) as Hne.
  rewrite signup_post, login_post by done.
  unfold signup_outcome, login_outcome, Get. rewrite Hd, lookup_empty.
  rewrite bool_decide_eq_true_2 by done. simpl.
  repeat split; [done |]. by eexists.
Qed.

(** *** Register, then authenticate *)

Lemma Get_empty_inherited (k : string) :
  k ∈ ObjectPrototype →
  Get (∅ : gmap string CredentialRecord) k = Inherited k.
Proof.
  intros Hk. unfold Get. rewrite lookup_empty.
  by rewrite bool_decide_eq_true_2.
Qed.

Lemma constructor_inherited : "constructor" ∈ ObjectPrototype.
Proof. apply (bool_decide_unpack _). vm_compute. exact I. Qed.

(** For a username that the lookup does not find, registering and then
    authenticating with the same password succeeds. *)
Lemma register_then_authenticate {correct : BcryptCorrect} (u p : string)
    (salt : Salt) (now now' : Date) (d : Disk) :
  u ≠ "" → p ≠ "" → Get (users d) u = Missing →
  (serve [Register (post u p) salt now; Authenticate (post u p) now'] d).1
    = [Normal signup_ok; Normal login_ok].
Proof.
  intros Hu Hp Hg. rewrite !serve_cons. simpl.
  rewrite signup_post by done. unfold signup_outcome. rewrite Hg. simpl.
  rewrite login_post by done. unfold login_outcome, Get. simpl.
  rewrite lookup_insert_eq. simpl. by rewrite compare_hash.
Qed.

(** Register answers 409 exactly when the lookup finds something, and
    then the store is the one it read. *)
Lemma signup_conflict_iff (u p : string) (salt : Salt) (now : Date)
    (d : Disk) :
  u ≠ "" → p ≠ "" →
  ((signup (post u p) salt now d).1 = Normal exists_already
     ↔ present (Get (users d) u) = true) ∧
  ((signup (post u p) salt now d).1 = Normal exists_already →
     users (signup (post u p) salt now d).2 = users d).
Proof.
  intros Hu Hp. rewrite signup_post by done. unfold signup_outcome.
  by destruct (present (Get (users d) u)).
Qed.

(** A username that the lookup does not find and a registered username
    with a wrong password are answered alike. *)
Lemma unknown_user_same_as_wrong_password (u1 p1 u2 p2 : string)
    (r : CredentialRecord) (now1 now2 : Date) (d : Disk) :
  u1 ≠ "" → p1 ≠ "" → u2 ≠ "" → p2 ≠ "" →
  Get (users d) u1 = Missing →
  users d !! u2 = Some r → compareString p2 (passwordHash r) = false →
  (login (post u1 p1) now1 d).1 = Normal invalid ∧
  (login (post u2 p2) now2 d).1 = Normal invalid.
Proof.
  intros ? ? ? ? Hg1 Hg2 Hc. rewrite !login_post by done.
  unfold login_outcome. apply Get_Own in Hg2. by rewrite Hg1, Hg2, Hc.
Qed.

(** C1, at the username [constructor]. The name is not in the fresh
    credential store, yet registering it is answered 409 and the
    authentication that follows ends in an exception: neither call
    succeeds. *)
Theorem register_inherited_name_fails (salt : Salt) (now now' : Date) :
  users fresh !! "constructor" = None ∧
  (serve [Register (post "constructor" "secret1") salt now;
          Authenticate (post "constructor" "secret1") now'] fresh).1
    = [Normal exists_already;
       Throw (Error "Illegal arguments: string, undefined")].
Proof.
  split; [done |]. rewrite !serve_cons. simpl.
  rewrite signup_post by done. unfold signup_outcome. simpl.
  rewrite (Get_empty_inherited _ constructor_inherited). simpl.
  rewrite login_post by done. unfold login_outcome. simpl.
  by rewrite (Get_empty_inherited _ constructor_inherited).
Qed.

(** C3, at the username [constructor]. Register answers 409 although the
    username is not present in the credential store. *)
Theorem conflict_without_registration (salt : Salt) (now : Date) :
  users fresh !! "constructor" = None ∧
  signup (post "constructor" "secret1") salt now fresh
    = (Normal exists_already, access (readFileSync usersFile) fresh) ∧
  status exists_already = 409.
Proof.
  split; [done |]. split; [| done].
  rewrite signup_post by done. unfold signup_outcome. simpl.
  by rewrite (Get_empty_inherited _ constructor_inherited).
Qed.

End BackEnd.

Import Reference.

#[export] Instance bcrypt_correct : BcryptCorrect.
Proof.
  constructor. intros p salt. simpl.
  induction p as [|a p IH]; simpl.
  - by destruct salt.
  - by destruct (Ascii.ascii_dec a a).
Qed.

(** The example of the specification: alice registers and logs in, then a
    wrong password and an unknown user get the same answer; only the two
    compared attempts are logged. *)
Example alice_and_bob :
  let run :=
    serve [ Register (post "alice" "secret1") "salt" 10;
            Authenticate (post "alice" "secret1") 11;
            Authenticate (post "alice" "wrong") 12;
            Authenticate (post "bob" "x") 13 ] fresh in
  run.1 = [Normal signup_ok; Normal login_ok; Normal invalid; Normal invalid] ∧
  logs run.2 =
    [ {| username := JString "alice"; date := "local:11"; success := true |};
      {| username := JString "alice"; date := "local:12"; success := false |} ].
Proof. vm_compute. by split. Qed.

(** C4, at the username [toString]. The name is absent from the store, and
    authenticating with it is not answered with the 401 response that a
    wrong password gets: the hash comparison throws and the client sees
    500. *)
Theorem absent_inherited_username_not_401 :
  let d := (signup (post "alice" "secret1") "salt" 10 fresh).2 in
  users d !! "toString" = None ∧
  (login (post "toString" "wrong") 12 d).1
    = Throw (Error "Illegal arguments: string, undefined") ∧
  http_status (login (post "toString" "wrong") 12 d).1 = 500 ∧
  (login (post "alice" "wrong") 12 d).1 = Normal invalid ∧
  http_status (login (post "alice" "wrong") 12 d).1 = 401.
Proof. vm_compute. by repeat split. Qed.





Lemma inherited_names_pass_for_users_witness :
  users fresh = ∅ ∧ "pw" ≠ "" ∧
  signup (post "constructor" "pw") "salt" 14 fresh
    = (Normal exists_already, access (readFileSync usersFile) fresh) ∧
  login (post "constructor" "pw") 15 fresh
    = (Throw (Error "Illegal arguments: string, undefined"),
       access (readFileSync usersFile) fresh).
Proof.
  assert (users fresh = ∅) as Hd by reflexivity.
  assert ("pw" ≠ "") as Hp by done.
  split; [exact Hd |]. split; [exact Hp |].
  destruct (@inherited_names_pass_for_users bcrypt clock "constructor" "pw"
              "salt" 15 fresh Hd Hp) as (_ & Hc & _ & Hin).
  destruct (Hin Hc) as (_ & _ & e & He & Hl).
  destruct (@inherited_names_pass_for_users bcrypt clock "constructor" "pw"
              "salt" 14 fresh Hd Hp) as (_ & _ & _ & Hin').
  destruct (Hin' Hc) as (Hs & _ & _).
  split; [exact Hs |]. rewrite Hl. by injection He as <-.
Defined.

Lemma validation_precedes_storage_witness :
  destructure (or_empty_object (post "alice" "")) =
    Normal (JString "alice", JString "") ∧
  (missing_or_empty (JString "alice") ∨ missing_or_empty (JString "")) ∧
  signup (post "alice" "") "salt" 7 fresh = (Normal required, fresh) ∧
  login (post "alice" "") 7 fresh = (Normal required, fresh) ∧
  status required = 400.
Proof.
  assert (destructure (or_empty_object (post "alice" "")) =
            Normal (JString "alice", JString "")) as Hd by apply destructure_post.
  assert (missing_or_empty (JString "alice") ∨ missing_or_empty (JString ""))
    as Hf by (right; right; reflexivity).
  split; [exact Hd |]. split; [exact Hf |].
  exact (@validation_precedes_storage bcrypt clock
           (post "alice" "") _ _ "salt" 7 fresh Hd Hf).
Defined.

Lemma non_object_body_answered_400_witness :
  is_object BUndefined = false ∧
  signup BUndefined "salt" 7 fresh = (Normal required, fresh) ∧
  login BUndefined 7 fresh = (Normal required, fresh).
Proof.
  split; [reflexivity |].
  apply (@non_object_body_answered_400 bcrypt clock BUndefined "salt" 7 fresh).
  reflexivity.
Defined.

(* ===================================================================== *)
(** ** Properties of the client-only front end *)
(* ===================================================================== *)

(** Whatever the parent passes as [onSuccess], [submit] calls it once, with
    the typed username, after the 300 ms timer, and never calls [fetch]. *)
Lemma submit_effects {P : Type}
    (callback : Frontend.User → P → Completion P)
    (s : Frontend.LoginForm.State) (p : P) :
  (Frontend.LoginForm.submit callback s p).2 =
    [ Frontend.preventDefault; Frontend.setTimeout 300;
      Frontend.onSuccess {| Frontend.username := Frontend.LoginForm.typed s |} ].
Proof.
  unfold Frontend.LoginForm.submit. simpl.
  by destruct (callback _ p).
Qed.

(** C8. In the client-only front end, submitting the login form succeeds
    for every username and password typed: the handler makes no network
    call, waits for its timer and then calls the success callback with the
    typed username, which brings [App] to the dashboard view; the form ends
    with no error shown and is no longer loading. *)
Theorem login_form_always_succeeds
    (s : Frontend.LoginForm.State) (a : Frontend.AppState) :
  let '(s', a', fx) := Frontend.App_submit s a in
  Frontend.view a' = Frontend.dashboard ∧
  Frontend.user a' =
    Some {| Frontend.username := Frontend.LoginForm.typed s |} ∧
  fx = [ Frontend.preventDefault; Frontend.setTimeout 300;
         Frontend.onSuccess
           {| Frontend.username := Frontend.LoginForm.typed s |} ] ∧
  forallb (λ e, negb (Frontend.is_fetch e)) fx = true ∧
  Frontend.LoginForm.loading s' = false ∧
  Frontend.LoginForm.error s' = "".
Proof. by destruct s, a. Qed.

(* ===================================================================== *)
(** ** Start-up *)
(* ===================================================================== *)

(** X1. Start-up creates exactly the files that are missing, with the
    contents [[]] and [{}], and leaves the content of a file that exists
    untouched, whatever it is; afterwards both files exist, and starting
    again changes nothing. *)
Theorem ensure_creates_only_missing (dir : Startup.Directory) :
  Startup.logFile_text (Startup.ensure dir)
    = Some (default "[]" (Startup.logFile_text dir)) ∧
  Startup.usersFile_text (Startup.ensure dir)
    = Some (default "{}" (Startup.usersFile_text dir)) ∧
  Startup.ensure (Startup.ensure dir) = Startup.ensure dir.
Proof. by destruct dir as [[l|] [u|]]. Qed.

(* ===================================================================== *)
(** ** More properties of the back end *)
(* ===================================================================== *)

Section BackEndMore.
Context {bcrypt : Bcrypt} {clock : Clock}.

Lemma Get_Inherited {V : Type} (o : gmap string V) (k k' : string) :
  Get o k = Inherited k' ↔ o !! k = None ∧ k ∈ ObjectPrototype ∧ k' = k.
Proof.
  unfold Get. destruct (o !! k) as [v|].
  - split; [done | by intros (? & _)].
  - destruct (decide (k ∈ ObjectPrototype)) as [Hk | Hk].
    + rewrite bool_decide_eq_true_2 by done.
      split; [by intros [= ->] | by intros (_ & _ & ->)].
    + rewrite bool_decide_eq_false_2 by done.
      split; [done | by intros (_ & ? & _)].
Qed.

Lemma signup_answers (body : Body) (salt : Salt) (now : Date) (d : Disk) :
  (∃ e, (signup body salt now d).1 = Throw e) ∨
  (signup body salt now d).1 = Normal required ∨
  (signup body salt now d).1 = Normal exists_already ∨
  (signup body salt now d).1 = Normal signup_ok.
Proof.
  destruct (fields_cases body) as [u p Hb Hf | u p Hb Hu Hp].
  - right. left. by rewrite (signup_rejects_falsy body u p salt now d Hb Hf).
  - rewrite (signup_truthy_eq body u p salt now d Hb Hu Hp).
    unfold signup_truthy.
    destruct (ToPropertyKey u) as [key|e]; [| left; by eexists].
    destruct (present _); [by right; right; left |].
    destruct (hashSync p salt) as [h|e]; [by right; right; right |].
    left. by eexists.
Qed.

Lemma login_answers (body : Body) (now : Date) (d : Disk) :
  (∃ e, (login body now d).1 = Throw e) ∨
  (login body now d).1 = Normal required ∨
  (login body now d).1 = Normal invalid ∨
  (login body now d).1 = Normal login_ok.
Proof.
  destruct (fields_cases body) as [u p Hb Hf | u p Hb Hu Hp].
  - right. left. by rewrite (login_rejects_falsy body u p now d Hb Hf).
  - rewrite (login_truthy_eq body u p now d Hb Hu Hp). unfold login_truthy.
    destruct (ToPropertyKey u) as [key|e]; [| left; by eexists].
    destruct (present _); simpl; [| by right; right; left].
    destruct (compareSync p _) as [[]|e]; simpl.
    + by right; right; right.
    + by right; right; left.
    + left. by eexists.
Qed.

Lemma hashSync_non_string (p : Value) (salt : Salt) :
  typeof p ≠ "string" →
  hashSync p salt = Throw (Error ("Illegal arguments: " ++ typeof p ++ ", string")).
Proof. by destruct p. Qed.

Lemma compareSync_non_string (p : Value) (h : string) :
  typeof p ≠ "string" →
  compareSync p (JString h)
    = Throw (Error ("Illegal arguments: " ++ typeof p ++ ", string")).
Proof. by destruct p. Qed.

(** X2. A signup whose password is not a string creates no record. With
    both fields truthy and a password that is a number, a boolean, an array
    or an object, the request is answered 409 when the lookup finds
    something; otherwise [bcrypt.hashSync] throws
    [Illegal arguments: <type>, string], and [users.json] has been read but
    is not written. *)
Theorem signup_non_string_password_creates_nothing (body : Body)
    (username password : Value) (key : string) (salt : Salt) (now : Date)
    (d : Disk) :
  destructure (or_empty_object body) = Normal (username, password) →
  truthy username = true → truthy password = true →
  typeof password ≠ "string" →
  ToPropertyKey username = Normal key →
  signup body salt now d =
    (if present (Get (users d) key) then Normal exists_already
     else Throw (Error ("Illegal arguments: " ++ typeof password ++ ", string")),
     access (readFileSync usersFile) d).
Proof.
  intros Hb Hu Hp Ht Hk.
  rewrite (signup_truthy_eq body _ _ salt now d Hb Hu Hp).
  unfold signup_truthy. rewrite Hk.
  destruct (present _); [done |]. by rewrite hashSync_non_string.
Qed.

(** X3. An authenticate call for a registered username with a password
    that is not a string is not a logged attempt: with both fields truthy,
    [bcrypt.compareSync] throws [Illegal arguments: <type>, string] before
    the entry is built, so nothing is appended to the attempt log and only
    [users.json] has been read. *)
Theorem login_non_string_password_not_logged (body : Body)
    (username password : Value) (key : string) (r : CredentialRecord)
    (now : Date) (d : Disk) :
  destructure (or_empty_object body) = Normal (username, password) →
  truthy username = true → truthy password = true →
  typeof password ≠ "string" →
  ToPropertyKey username = Normal key →
  users d !! key = Some r →
  login body now d =
    (Throw (Error ("Illegal arguments: " ++ typeof password ++ ", string")),
     access (readFileSync usersFile) d).
Proof.
  intros Hb Hu Hp Ht Hk Hr.
  rewrite (login_truthy_eq body _ _ now d Hb Hu Hp).
  unfold login_truthy. rewrite Hk. apply Get_Own in Hr. rewrite Hr. simpl.
  by rewrite compareSync_non_string.
Qed.

(** *** What the store holds over a sequence of requests *)

Lemma handle_users_subseteq (c : Call) (d : Disk) :
  users d ⊆ users (handle c d).2.
Proof.
  destruct c as [body salt now | body now]; simpl.
  - by destruct (signup_frame body salt now d) as [_ ?].
  - by destruct (login_frame body now d) as [-> _].
Qed.

Lemma serve_users_subseteq (cs : list Call) (d : Disk) :
  users d ⊆ users (serve cs d).2.
Proof.
  revert d. induction cs as [|c cs IH]; intros d; [done |].
  rewrite serve_cons. simpl.
  etrans; [apply handle_users_subseteq | apply IH].
Qed.

(** X6. Over any sequence of register and authenticate calls the
    credential store only grows: every record it holds is still there, with
    the same hash and creation time, after the sequence. *)
Theorem records_persist (cs : list Call) (d : Disk) :
  users d ⊆ users (serve cs d).2.
Proof. apply serve_users_subseteq. Qed.

Lemma handle_no_inherited_key (c : Call) (d : Disk) :
  Audit.no_inherited_key d → Audit.no_inherited_key (handle c d).2.
Proof.
  intros Hd. destruct c as [body salt now | body now]; simpl.
  - destruct (fields_cases body) as [u p Hb Hf | u p Hb Hu Hp].
    + by rewrite (signup_rejects_falsy body u p salt now d Hb Hf).
    + rewrite (signup_truthy_eq body u p salt now d Hb Hu Hp).
      unfold signup_truthy.
      destruct (ToPropertyKey u) as [key|e]; [| done].
      destruct (Get (users d) key) as [r|k'|] eqn:Hg; simpl; [done.. |].
      destruct (hashSync p salt) as [h|e]; [| done].
      apply Get_Missing in Hg as [_ Hu'].
      intros k Hk. simpl. rewrite lookup_insert_ne; [by apply Hd |].
      by intros ->.
  - intros k Hk. destruct (login_frame body now d) as [-> _]. by apply Hd.
Qed.

(** X4. The names of the members of [Object.prototype] are never
    registered: when none of them is a key of the store, none is after any
    sequence of requests. *)
Theorem inherited_names_never_registered (cs : list Call) (d : Disk) :
  Audit.no_inherited_key d → Audit.no_inherited_key (serve cs d).2.
Proof.
  revert d. induction cs as [|c cs IH]; intros d Hd; [done |].
  rewrite serve_cons. simpl. by apply IH, handle_no_inherited_key.
Qed.

Lemma destructure_post_values (u p : Value) :
  destructure (or_empty_object (post_values u p)) = Normal (u, p).
Proof.
  unfold post_values, or_empty_object, destructure, member; simpl.
  rewrite lookup_insert_eq.
  rewrite lookup_insert_ne by done.
  by rewrite lookup_insert_eq.
Qed.

(** X5. Registering, with a non-empty string password, a non-empty string
    username that the lookup does not find succeeds, and registering the
    same username again with any truthy password, string or not, is
    answered 409 while the store keeps the record of the first
    registration. *)
Theorem second_registration_conflicts (u p : string) (p' : Value)
    (salt salt' : Salt) (now now' : Date) (d : Disk) :
  u ≠ "" → p ≠ "" → truthy p' = true → Get (users d) u = Missing →
  (signup (post u p) salt now d).1 = Normal signup_ok ∧
  (signup (post_values (JString u) p') salt' now'
     (signup (post u p) salt now d).2).1
    = Normal exists_already ∧
  users (signup (post_values (JString u) p') salt' now'
           (signup (post u p) salt now d).2).2 !! u
    = Some {| passwordHash := hashString p salt;
              createdAt := toISOString now |}.
Proof.
  intros Hu Hp Hp' Hg.
  assert (signup (post u p) salt now d = signup_outcome u p salt now d) as Hs
    by by apply signup_post.
  unfold signup_outcome in Hs. rewrite Hg in Hs. simpl in Hs.
  rewrite Hs. simpl. split; [done |].
  rewrite (signup_truthy_eq _ _ _ salt' now' _ (destructure_post_values _ _)
             (truthy_JString _ Hu) Hp').
  unfold signup_truthy, Get. simpl.
  rewrite lookup_insert_eq. simpl. by rewrite lookup_insert_eq.
Qed.

(** X7. Credentials are durable: once a username that the lookup did not
    find is registered, then after any further sequence of requests
    authenticating with the registered password succeeds. *)
Theorem registered_user_can_always_log_in {correct : BcryptCorrect}
    (u p : string) (salt : Salt) (now now' : Date) (cs : list Call)
    (d : Disk) :
  u ≠ "" → p ≠ "" → Get (users d) u = Missing →
  (login (post u p) now'
     (serve (Register (post u p) salt now :: cs) d).2).1 = Normal login_ok.
Proof.
  intros Hu Hp Hg. rewrite serve_cons. simpl.
  set (d1 := (signup (post u p) salt now d).2).
  assert (users d1 !! u = Some {| passwordHash := hashString p salt;
                                  createdAt := toISOString now |}) as Hr.
  { unfold d1. rewrite signup_post by done. unfold signup_outcome.
    rewrite Hg. simpl. by rewrite lookup_insert_eq. }
  pose proof (serve_users_subseteq cs d1) as Hsub.
  eapply lookup_weaken in Hr; [| exact Hsub].
  rewrite login_post by done. unfold login_outcome.
  apply Get_Own in Hr. rewrite Hr. simpl. by rewrite compare_hash.
Qed.

(** X8. The file accesses of each handler go with its outcome. Register
    makes no access when it answers 400, reads [users.json] once otherwise,
    and writes it, after that read and with one new key, exactly when it
    answers [Signup successful]. Authenticate makes no access when it
    answers 400, reads [users.json] once otherwise and never writes it, and
    reads and then writes [loginLogs.json] exactly when it appends an
    entry, whose [success] is the answer; it does so whenever a non-empty
    string password is tried against a stored record. *)
Theorem handlers_file_accesses (body : Body) (salt : Salt) (now : Date)
    (d : Disk) :
  (∃ evs, trace (signup body salt now d).2 = (trace d ++ evs)%list ∧
     ((evs = [] ∧
       (signup body salt now d).1 = Normal required ∧
       users (signup body salt now d).2 = users d) ∨
      (evs = [readFileSync usersFile] ∧
       (signup body salt now d).1 ≠ Normal required ∧
       (signup body salt now d).1 ≠ Normal signup_ok ∧
       users (signup body salt now d).2 = users d) ∨
      (evs = [readFileSync usersFile; writeFileSync usersFile] ∧
       (signup body salt now d).1 = Normal signup_ok ∧
       ∃ key r, users d !! key = None ∧
                users (signup body salt now d).2 = <[key := r]> (users d)))) ∧
  (∃ evs, trace (login body now d).2 = (trace d ++ evs)%list ∧
     ((evs = [] ∧
       (login body now d).1 = Normal required ∧
       logs (login body now d).2 = logs d) ∨
      (evs = [readFileSync usersFile] ∧
       (login body now d).1 ≠ Normal required ∧
       (login body now d).1 ≠ Normal login_ok ∧
       logs (login body now d).2 = logs d) ∨
      (evs = [readFileSync usersFile; readFileSync logFile;
              writeFileSync logFile] ∧
       ∃ e, logs (login body now d).2 = (logs d ++ [e])%list ∧
            (login body now d).1
              = Normal (if success e then login_ok else invalid)))) ∧
  (∀ (username : Value) (p key : string) (r : CredentialRecord),
     destructure (or_empty_object body) = Normal (username, JString p) →
     truthy username = true → p ≠ "" →
     ToPropertyKey username = Normal key →
     users d !! key = Some r →
     trace (login body now d).2
       = (trace d ++ [readFileSync usersFile; readFileSync logFile;
                      writeFileSync logFile])%list).
Proof.
  split; [| split].
  - destruct (fields_cases body) as [u p Hb Hf | u p Hb Hu Hp].
    + rewrite (signup_rejects_falsy body u p salt now d Hb Hf). simpl.
      exists []. split; [by rewrite app_nil_r | by left].
    + rewrite (signup_truthy_eq body u p salt now d Hb Hu Hp).
      unfold signup_truthy.
      destruct (ToPropertyKey u) as [key|e]; simpl;
        [| eexists; split; [done | by right; left]].
      destruct (Get (users d) key) as [r|k|] eqn:Hg; simpl;
        [eexists; split; [done | by right; left].. |].
      destruct (hashSync p salt) as [h|e]; simpl;
        [| eexists; split; [done | by right; left]].
      eexists [_; _]. split; [by rewrite <- app_assoc |].
      right; right. split; [done |]. split; [done |].
      apply Get_Missing in Hg as [Hnone _]. by eexists _, _.
  - destruct (fields_cases body) as [u p Hb Hf | u p Hb Hu Hp].
    + rewrite (login_rejects_falsy body u p now d Hb Hf). simpl.
      exists []. split; [by rewrite app_nil_r | by left].
    + rewrite (login_truthy_eq body u p now d Hb Hu Hp).
      unfold login_truthy.
      destruct (ToPropertyKey u) as [key|e]; simpl;
        [| eexists; split; [done | by right; left]].
      destruct (present (Get (users d) key)); simpl;
        [| eexists; split; [done | by right; left]].
      destruct (compareSync p _) as [v|e]; simpl;
        [| eexists; split; [done | by right; left]].
      eexists [_; _; _]. split; [by rewrite <- !app_assoc |].
      right; right. split; [done |]. by eexists.
  - intros username p key r Hb Hu Hp Hk Hr.
    rewrite (login_truthy_eq body _ _ now d Hb Hu (truthy_JString _ Hp)).
    unfold login_truthy. rewrite Hk. apply Get_Own in Hr. rewrite Hr. simpl.
    by rewrite <- !app_assoc.
Qed.

(** *** Accounting *)

Lemma count_app {A : Type} (f : A → bool) (l1 l2 : list A) :
  Audit.count f (l1 ++ l2)%list = Audit.count f l1 + Audit.count f l2.
Proof. unfold Audit.count. by rewrite List.filter_app, length_app. Qed.

Lemma count_cons {A : Type} (f : A → bool) (x : A) (l : list A) :
  Audit.count f (x :: l) = (if f x then 1 else 0) + Audit.count f l.
Proof. unfold Audit.count. simpl. by destruct (f x). Qed.

Lemma handle_audit (c : Call) (d : Disk) :
  ∃ es, logs (handle c d).2 = (logs d ++ es)%list ∧
        Audit.count success es
          = (if Audit.is_login_ok (handle c d).1 then 1 else 0) ∧
        (Audit.count (λ e, negb (success e)) es
           ≤ (if Audit.is_invalid (handle c d).1 then 1 else 0))%nat.
Proof.
  destruct c as [body salt now | body now]; simpl.
  - exists []. destruct (signup_frame body salt now d) as [-> _].
    rewrite app_nil_r. split; [done |].
    destruct (signup_answers body salt now d) as [[e ->] | [-> | [-> | ->]]];
      by split; [| apply Nat.le_0_l].
  - destruct (fields_cases body) as [u p Hb Hf | u p Hb Hu Hp].
    + exists []. rewrite (login_rejects_falsy body u p now d Hb Hf).
      by rewrite app_nil_r.
    + rewrite (login_truthy_eq body u p now d Hb Hu Hp). unfold login_truthy.
      destruct (ToPropertyKey u) as [key|e]; simpl;
        [| exists []; rewrite app_nil_r;
           by split; [| split; [| apply Nat.le_0_l]]].
      destruct (present (Get (users d) key)); simpl;
        [| exists []; rewrite app_nil_r;
           by split; [| split; [| apply Nat.le_0_l]]].
      destruct (compareSync p _) as [v|e]; simpl;
        [| exists []; rewrite app_nil_r;
           by split; [| split; [| apply Nat.le_0_l]]].
      eexists [_]. split; [done |]. by destruct v.
Qed.

(** X9. The attempt log agrees with what the clients were told: over any
    sequence of requests, the entries appended with [success: true] are as
    many as the [Login successful] responses, and the entries appended with
    [success: false] are at most as many as the 401 responses (the 401 for
    an unknown username leaves no entry). *)
Theorem log_agrees_with_responses (cs : list Call) (d : Disk) :
  ∃ es, logs (serve cs d).2 = (logs d ++ es)%list ∧
        Audit.count success es = Audit.count Audit.is_login_ok (serve cs d).1 ∧
        (Audit.count (λ e, negb (success e)) es
           ≤ Audit.count Audit.is_invalid (serve cs d).1)%nat.
Proof.
  revert d. induction cs as [|c cs IH]; intros d.
  - exists []. by rewrite app_nil_r.
  - rewrite serve_cons. simpl.
    destruct (handle_audit c d) as (es0 & He0 & Ht0 & Hf0).
    destruct (IH (handle c d).2) as (es1 & He1 & Ht1 & Hf1).
    exists (es0 ++ es1)%list. rewrite !count_app, !count_cons.
    split; [by rewrite He1, He0, app_assoc |]. split; lia.
Qed.

Lemma handle_size (c : Call) (d : Disk) :
  size (users (handle c d).2)
    = size (users d) + (if Audit.is_signup_ok (handle c d).1 then 1 else 0).
Proof.
  destruct c as [body salt now | body now]; simpl.
  - destruct (fields_cases body) as [u p Hb Hf | u p Hb Hu Hp].
    + rewrite (signup_rejects_falsy body u p salt now d Hb Hf). simpl. lia.
    + rewrite (signup_truthy_eq body u p salt now d Hb Hu Hp).
      unfold signup_truthy.
      destruct (ToPropertyKey u) as [key|e]; simpl; [| lia].
      destruct (Get (users d) key) as [r|k|] eqn:Hg; simpl; [lia.. |].
      destruct (hashSync p salt) as [h|e]; simpl; [| lia].
      apply Get_Missing in Hg as [Hnone _].
      rewrite map_size_insert_None by done. lia.
  - destruct (login_frame body now d) as [-> _].
    destruct (login_answers body now d)
      as [[e ->] | [-> | [-> | ->]]]; simpl; lia.
Qed.

(** X10. The credential store grows by exactly one record per
    [Signup successful] response: after any sequence of requests its size
    is the size before plus the number of those responses. *)
Theorem store_size_counts_signups (cs : list Call) (d : Disk) :
  size (users (serve cs d).2)
    = size (users d) + Audit.count Audit.is_signup_ok (serve cs d).1.
Proof.
  revert d. induction cs as [|c cs IH]; intros d.
  - simpl. unfold Audit.count. simpl. lia.
  - rewrite serve_cons. simpl. rewrite IH, handle_size, count_cons. lia.
Qed.

End BackEndMore.

Lemma inherited_names_never_registered_witness :
  Audit.no_inherited_key fresh ∧
  Audit.no_inherited_key
    (serve [ Register (post "constructor" "pw") "salt" 1;
             Register (post "alice" "secret1") "salt" 2 ] fresh).2.
Proof.
  assert (Audit.no_inherited_key fresh) as Hd by (intros k _; apply lookup_empty).
  split; [exact Hd |].
  exact (@inherited_names_never_registered bcrypt clock _ fresh Hd).
Defined.

Lemma second_registration_conflicts_witness :
  "alice" ≠ "" ∧ "secret1" ≠ "" ∧ truthy (JNumber "123") = true ∧
  Get (users fresh) "alice" = Missing ∧
  (signup (post_values (JString "alice") (JNumber "123")) "salt2" 11
     (signup (post "alice" "secret1") "salt" 10 fresh).2).1
    = Normal exists_already.
Proof.
  assert ("alice" ≠ "") as Hu by done.
  assert ("secret1" ≠ "") as Hp by done.
  assert (truthy (JNumber "123") = true) as Hp' by reflexivity.
  assert (Get (users fresh) "alice" = Missing) as Hg by reflexivity.
  repeat (split; [done |]).
  exact (proj1 (proj2 (@second_registration_conflicts bcrypt clock
           "alice" "secret1" (JNumber "123") "salt" "salt2" 10 11 fresh
           Hu Hp Hp' Hg))).
Defined.

Lemma signup_non_string_password_creates_nothing_witness :
  let body := post_values (JString "bob") (JNumber "123") in
  destructure (or_empty_object body) = Normal (JString "bob", JNumber "123") ∧
  truthy (JString "bob") = true ∧ truthy (JNumber "123") = true ∧
  typeof (JNumber "123") ≠ "string" ∧
  ToPropertyKey (JString "bob") = Normal "bob" ∧
  signup body "salt" 10 fresh =
    (Throw (Error "Illegal arguments: number, string"),
     access (readFileSync usersFile) fresh).
Proof.
  intros body.
  assert (destructure (or_empty_object body)
            = Normal (JString "bob", JNumber "123")) as Hb
    by apply destructure_post_values.
  assert (truthy (JString "bob") = true) as Hu by reflexivity.
  assert (truthy (JNumber "123") = true) as Hp by reflexivity.
  assert (typeof (JNumber "123") ≠ "string") as Ht by done.
  assert (ToPropertyKey (JString "bob") = Normal "bob") as Hk by reflexivity.
  repeat (split; [done |]).
  exact (@signup_non_string_password_creates_nothing bcrypt clock body
           _ _ "bob" "salt" 10 fresh Hb Hu Hp Ht Hk).
Defined.

Lemma login_non_string_password_not_logged_witness :
  let d := (signup (post "alice" "secret1") "salt" 10 fresh).2 in
  let body := post_values (JString "alice") (JNumber "123") in
  destructure (or_empty_object body)
    = Normal (JString "alice", JNumber "123") ∧
  truthy (JString "alice") = true ∧ truthy (JNumber "123") = true ∧
  typeof (JNumber "123") ≠ "string" ∧
  ToPropertyKey (JString "alice") = Normal "alice" ∧
  users d !! "alice"
    = Some {| passwordHash := "secret1$salt"; createdAt := "iso:10" |} ∧
  login body 11 d =
    (Throw (Error "Illegal arguments: number, string"),
     access (readFileSync usersFile) d).
Proof.
  intros d body.
  assert (destructure (or_empty_object body)
            = Normal (JString "alice", JNumber "123")) as Hb
    by apply destructure_post_values.
  assert (truthy (JString "alice") = true) as Hu by reflexivity.
  assert (truthy (JNumber "123") = true) as Hp by reflexivity.
  assert (typeof (JNumber "123") ≠ "string") as Ht by done.
  assert (ToPropertyKey (JString "alice") = Normal "alice") as Hk
    by reflexivity.
  assert (users d !! "alice"
            = Some {| passwordHash := "secret1$salt"; createdAt := "iso:10" |})
    as Hr by (vm_compute; reflexivity).
  repeat (split; [done |]).
  exact (@login_non_string_password_not_logged bcrypt clock body
           _ _ "alice" _ 11 d Hb Hu Hp Ht Hk Hr).
Defined.

Lemma handlers_file_accesses_witness :
  let d := (signup (post "alice" "secret1") "salt" 10 fresh).2 in
  destructure (or_empty_object (post "alice" "wrong"))
    = Normal (JString "alice", JString "wrong") ∧
  truthy (JString "alice") = true ∧ "wrong" ≠ "" ∧
  ToPropertyKey (JString "alice") = Normal "alice" ∧
  users d !! "alice"
    = Some {| passwordHash := "secret1$salt"; createdAt := "iso:10" |} ∧
  trace (login (post "alice" "wrong") 11 d).2
    = (trace d ++ [readFileSync usersFile; readFileSync logFile;
                   writeFileSync logFile])%list.
Proof.
  intros d.
  assert (destructure (or_empty_object (post "alice" "wrong"))
            = Normal (JString "alice", JString "wrong")) as Hb
    by apply destructure_post.
  assert (truthy (JString "alice") = true) as Hu by reflexivity.
  assert ("wrong" ≠ "") as Hp by done.
  assert (ToPropertyKey (JString "alice") = Normal "alice") as Hk
    by reflexivity.
  assert (users d !! "alice"
            = Some {| passwordHash := "secret1$salt"; createdAt := "iso:10" |})
    as Hr by (vm_compute; reflexivity).
  repeat (split; [done |]).
  exact (proj2 (proj2 (@handlers_file_accesses bcrypt clock
           (post "alice" "wrong") "salt" 11 d)) _ _ _ _ Hb Hu Hp Hk Hr).
Defined.

Lemma registered_user_can_always_log_in_witness :
  "alice" ≠ "" ∧ "secret1" ≠ "" ∧
  Get (users fresh) "alice" = Missing ∧
  (login (post "alice" "secret1") 13
     (serve [ Register (post "alice" "secret1") "salt" 10;
              Authenticate (post "alice" "wrong") 11;
              Register (post "alice" "other") "salt2" 12 ] fresh).2).1
    = Normal login_ok.
Proof.
  assert ("alice" ≠ "") as Hu by done.
  assert ("secret1" ≠ "") as Hp by done.
  assert (Get (users fresh) "alice" = Missing) as Hg by reflexivity.
  repeat (split; [done |]).
  exact (@registered_user_can_always_log_in bcrypt clock bcrypt_correct
           "alice" "secret1" "salt" 10 13 _ fresh Hu Hp Hg).
Defined.

(* ===================================================================== *)
(** ** More properties of the client-only front end *)
(* ===================================================================== *)

(** X11. Submitting the signup form of the client-only front end registers
    nothing: whatever was typed, the handler makes no network call and does
    not call the success callback; after its timer it only asks for the
    login view, so [App] shows the login form with the user still unset. *)
Theorem signup_form_only_switches
    (s : ClientApp.SignupForm.State) (a : Frontend.AppState) :
  let '(s', a', fx) :=
    ClientApp.SignupForm.submit
      (λ v a, Normal (ClientApp.setView v a)) s a in
  Frontend.view a' = Frontend.login ∧
  Frontend.user a' = Frontend.user a ∧
  fx = [ Frontend.preventDefault; Frontend.setTimeout 300;
         Frontend.onSwitch Frontend.login ] ∧
  Frontend.LoginForm.loading s' = false ∧
  Frontend.LoginForm.error s' = "".
Proof. by destruct s, a. Qed.

Lemma run_snoc (es : list ClientApp.Event) (e : ClientApp.Event)
    (a : Frontend.AppState) :
  ClientApp.run (es ++ [e])%list a = ClientApp.step e (ClientApp.run es a).
Proof. unfold ClientApp.run. by rewrite fold_left_app. Qed.

Lemma step_dashboard_iff_user (e : ClientApp.Event) (a : Frontend.AppState) :
  (Frontend.view a = Frontend.dashboard ↔ is_Some (Frontend.user a)) →
  (Frontend.view (ClientApp.step e a) = Frontend.dashboard
     ↔ is_Some (Frontend.user (ClientApp.step e a))).
Proof.
  intros Ha. destruct a as [v u]. simpl in *.
  destruct v, e; simpl; try done.
  all: destruct Ha as [_ Ha]; split; [done |].
  all: intros Hu; by specialize (Ha Hu).
Qed.

Lemma run_dashboard_iff_user (es : list ClientApp.Event) :
  Frontend.view (ClientApp.run es ClientApp.initial) = Frontend.dashboard
    ↔ is_Some (Frontend.user (ClientApp.run es ClientApp.initial)).
Proof.
  induction es as [|e es IH] using rev_ind.
  - simpl. split; [done | by intros [? ?]].
  - rewrite run_snoc. by apply step_dashboard_iff_user.
Qed.

(** X12. In the client-only front end the dashboard and the user go
    together: after any sequence of form submissions and clicks, starting
    from the initial state, [App] is on the dashboard exactly when a user is
    set. *)
Theorem dashboard_iff_user (es : list ClientApp.Event) :
  Frontend.view (ClientApp.run es ClientApp.initial) = Frontend.dashboard
    ↔ is_Some (Frontend.user (ClientApp.run es ClientApp.initial)).
Proof. apply run_dashboard_iff_user. Qed.

Lemma user_comes_from_login_submit (es : list ClientApp.Event) :
  Frontend.user (ClientApp.run es ClientApp.initial) = None ∨
  ∃ t p, ClientApp.SubmitLogin t p ∈ es ∧
         Frontend.user (ClientApp.run es ClientApp.initial)
           = Some {| Frontend.username := t |}.
Proof.
  induction es as [|e es IH] using rev_ind; [by left |].
  rewrite run_snoc.
  destruct (ClientApp.run es ClientApp.initial) as [v u]. simpl in IH.
  assert (u = None ∨
          ∃ t p, ClientApp.SubmitLogin t p ∈ (es ++ [e])%list ∧
                 u = Some {| Frontend.username := t |}) as IH'.
  { destruct IH as [? | (t & p & Hin & ?)]; [by left | right].
    exists t, p. split; [| done]. apply elem_of_app. by left. }
  destruct v, e; simpl; try done; try by left.
  right. exists typed, password. split; [| done].
  apply elem_of_app. right. apply list_elem_of_here.
Qed.

(** X13. The dashboard of the client-only front end is reached through the
    login form only, and it greets the name typed there: whenever [App]
    shows the dashboard after a sequence of events, the sequence contains a
    login submission, and the greeting is [Hello, ] followed by the username
    of one of them, whatever password came with it. *)
Theorem dashboard_greets_typed_name (es : list ClientApp.Event) :
  Frontend.view (ClientApp.run es ClientApp.initial) = Frontend.dashboard →
  ∃ t p, ClientApp.SubmitLogin t p ∈ es ∧
         ClientApp.render (ClientApp.run es ClientApp.initial)
           = ClientApp.DashboardScreen ("Hello, " ++ t).
Proof.
  intros Hv.
  destruct (user_comes_from_login_submit es) as [Hu | (t & p & Hin & Hu)].
  - apply run_dashboard_iff_user in Hv as [x Hx]. congruence.
  - exists t, p. split; [done |].
    unfold ClientApp.render. by rewrite Hv, Hu.
Qed.

Lemma dashboard_greets_typed_name_witness :
  let es := [ ClientApp.ClickSwitch;
              ClientApp.SubmitSignup "al" "secret";
              ClientApp.SubmitLogin "al" "" ] in
  Frontend.view (ClientApp.run es ClientApp.initial) = Frontend.dashboard ∧
  ∃ t p, ClientApp.SubmitLogin t p ∈ es ∧
         ClientApp.render (ClientApp.run es ClientApp.initial)
           = ClientApp.DashboardScreen ("Hello, " ++ t).
Proof.
  intros es.
  assert (Frontend.view (ClientApp.run es ClientApp.initial)
            = Frontend.dashboard) as Hv by reflexivity.
  split; [exact Hv |].
  exact (dashboard_greets_typed_name es Hv).
Defined.

(* ===================================================================== *)
(** ** Properties of the front end on the identity platform's SDK *)
(* ===================================================================== *)

Local Open Scope nat_scope.
Local Set Warnings "-clear-no-such-hyp".

Lemma App_submit_cases (s : Firebase.AuthForm.State) (a : Firebase.AppState) :
  (5 ≤ length (Firebase.AuthForm.email s) ∧
   6 ≤ length (Firebase.AuthForm.password s) ∧
   Firebase.App_submit s a =
     (Firebase.AuthForm.setIsLoading true (Firebase.AuthForm.setError None s),
      Firebase.handleAuthSuccess a,
      [Firebase.preventDefault; Firebase.setTimeout 800;
       Firebase.onAuthSuccess])) ∨
  ((length (Firebase.AuthForm.email s) < 5 ∨
    length (Firebase.AuthForm.password s) < 6) ∧
   Firebase.App_submit s a =
     (Firebase.AuthForm.caught
        (Error Firebase.AuthForm.invalid_credentials)
        (Firebase.AuthForm.setIsLoading true
           (Firebase.AuthForm.setError None s)),
      a,
      [Firebase.preventDefault; Firebase.setTimeout 800])).
Proof.
  unfold Firebase.App_submit, Firebase.AuthForm.handleSubmit. simpl.
  destruct (Nat.ltb_spec (length (Firebase.AuthForm.email s)) 5) as [He | He];
    simpl.
  - right. split; [by left | done].
  - destruct (Nat.ltb_spec (length (Firebase.AuthForm.password s)) 6)
      as [Hp | Hp]; simpl.
    + right. split; [by right | done].
    + by left.
Qed.

(** X14. The form of the SDK front end accepts a submission exactly when
    the email has at least 5 code units and the password at least 6: then it
    calls the success callback, [App] gets [handleAuthSuccess] and no error
    is shown; otherwise it does not call it, leaves [App] as it was and
    shows the invalid-credentials message. In neither case does it call the
    SDK. *)
Theorem auth_form_accepts_by_length (s : Firebase.AuthForm.State)
    (a : Firebase.AppState) :
  (Firebase.onAuthSuccess ∈ (Firebase.App_submit s a).2
     ↔ 5 ≤ length (Firebase.AuthForm.email s) ∧
       6 ≤ length (Firebase.AuthForm.password s)) ∧
  (Firebase.AuthForm.error (Firebase.App_submit s a).1.1 = None
     ↔ 5 ≤ length (Firebase.AuthForm.email s) ∧
       6 ≤ length (Firebase.AuthForm.password s)) ∧
  (5 ≤ length (Firebase.AuthForm.email s) ∧
   6 ≤ length (Firebase.AuthForm.password s) →
   (Firebase.App_submit s a).1.2 = Firebase.handleAuthSuccess a) ∧
  (length (Firebase.AuthForm.email s) < 5 ∨
   length (Firebase.AuthForm.password s) < 6 →
   (Firebase.App_submit s a).1.2 = a ∧
   Firebase.AuthForm.error (Firebase.App_submit s a).1.1
     = Some Firebase.AuthForm.invalid_credentials) ∧
  (∀ c, Firebase.sdk_call c ∉ (Firebase.App_submit s a).2).
Proof.
  destruct (App_submit_cases s a) as [(He & Hp & ->) | (Hlt & ->)]; simpl.
  - split; [split; [done | intros _; repeat constructor] |].
    split; [done |]. split; [done |]. split; [lia |].
    intros c Hc. rewrite !elem_of_cons, elem_of_nil in Hc. naive_solver.
  - split.
    { split; [| lia]. intros Hc.
      rewrite !elem_of_cons, elem_of_nil in Hc. naive_solver. }
    split; [split; [done | lia] |]. split; [lia |]. split; [done |].
    intros c Hc. rewrite !elem_of_cons, elem_of_nil in Hc. naive_solver.
Qed.

Lemma auth_form_accepts_by_length_witness :
  let s := {| Firebase.AuthForm.email := [97; 64; 98]%N;
              Firebase.AuthForm.password := [49; 50; 51; 52; 53; 54]%N;
              Firebase.AuthForm.isLoading := false;
              Firebase.AuthForm.error := None |} in
  (length (Firebase.AuthForm.email s) < 5 ∨
   length (Firebase.AuthForm.password s) < 6) ∧
  (Firebase.App_submit s Firebase.initial).1.2 = Firebase.initial ∧
  Firebase.AuthForm.error (Firebase.App_submit s Firebase.initial).1.1
    = Some Firebase.AuthForm.invalid_credentials.
Proof.
  intros s.
  assert (length (Firebase.AuthForm.email s) < 5 ∨
          length (Firebase.AuthForm.password s) < 6) as Hlt
    by (left; simpl; lia).
  split; [exact Hlt |].
  exact (proj1 (proj2 (proj2 (proj2
           (auth_form_accepts_by_length s Firebase.initial)))) Hlt).
Defined.

(** X15. The loading flag of that form is cleared only when the submission
    is rejected: after an accepted submission [isLoading] is still true, so
    the submit button stays disabled for as long as the form is mounted. *)
Theorem auth_form_stays_loading_on_success (s : Firebase.AuthForm.State)
    (a : Firebase.AppState) :
  Firebase.AuthForm.isLoading (Firebase.App_submit s a).1.1 = true
    ↔ 5 ≤ length (Firebase.AuthForm.email s) ∧
      6 ≤ length (Firebase.AuthForm.password s).
Proof.
  destruct (App_submit_cases s a) as [(He & Hp & ->) | (Hlt & ->)]; simpl.
  - done.
  - split; [done | lia].
Qed.

(** X16. An accepted submission alone does not open the dashboard: while the
    SDK reports no signed-in user, [App] keeps showing the form after
    [handleAuthSuccess], as the login form, also when the visitor was on the
    register form. *)
Theorem form_success_without_user_shows_login (a : Firebase.AppState) :
  Firebase.isAuthReady a = true →
  Firebase.uid_truthy (Firebase.userId a) = false →
  Firebase.render (Firebase.handleAuthSuccess a)
    = Firebase.AuthFormOf Firebase.login_form.
Proof.
  intros Hr Hu. unfold Firebase.render, Firebase.handleAuthSuccess. simpl.
  by rewrite Hr, Hu.
Qed.

Lemma form_success_without_user_shows_login_witness :
  let a := {| Firebase.view := Firebase.register; Firebase.db := true;
              Firebase.auth := true; Firebase.userId := None;
              Firebase.isAuthReady := true |} in
  Firebase.isAuthReady a = true ∧
  Firebase.uid_truthy (Firebase.userId a) = false ∧
  Firebase.render (Firebase.handleAuthSuccess a)
    = Firebase.AuthFormOf Firebase.login_form.
Proof.
  intros a.
  assert (Firebase.isAuthReady a = true) as Hr by reflexivity.
  assert (Firebase.uid_truthy (Firebase.userId a) = false) as Hu
    by reflexivity.
  split; [exact Hr |]. split; [exact Hu |].
  exact (form_success_without_user_shows_login a Hr Hu).
Defined.

(** X17. What the auth-state listener that [App] installs does. On a
    sign-out notification it always sends [App] to the login form, from the
    register form as well, because the view it tests is the one of the first
    render; on a sign-in notification it shows the dashboard of that user
    (of a non-empty uid). Either way [App] is ready afterwards. *)
Theorem listener_sends_signed_out_to_login (a : Firebase.AppState)
    (uid : string) :
  Firebase.view (Firebase.installed_listener None a) = Firebase.login ∧
  Firebase.userId (Firebase.installed_listener None a) = None ∧
  Firebase.render (Firebase.installed_listener None a)
    = Firebase.AuthFormOf Firebase.login_form ∧
  Firebase.render (Firebase.installed_listener (Some uid) a)
    = (if bool_decide (uid = "") then Firebase.AuthFormOf Firebase.login_form
       else Firebase.DashboardFor uid).
Proof.
  unfold Firebase.installed_listener, Firebase.authListener, Firebase.render.
  simpl. repeat split. by destruct (bool_decide (uid = "")).
Qed.

(** X18. [authenticateUser] falls back to anonymous sign-in exactly when
    there is no usable token or the sign-in with the token is rejected; the
    token is used exactly when it is a non-empty string; and the only
    rejection that leaves the function is the one of the anonymous sign-in,
    never the one of the token. *)
Theorem authenticateUser_falls_back (token : option string)
    (sdk : Firebase.Sdk) :
  (Firebase.signInAnonymously ∈ (Firebase.authenticateUser token sdk).2
     ↔ Firebase.token_truthy token = false ∨
       ∃ e, Firebase.custom_token_result sdk = Throw e) ∧
  (∀ t, Firebase.signInWithCustomToken t
          ∈ (Firebase.authenticateUser token sdk).2
        ↔ token = Some t ∧ t ≠ "") ∧
  (∀ e, (Firebase.authenticateUser token sdk).1 = Throw e
        ↔ Firebase.signInAnonymously ∈ (Firebase.authenticateUser token sdk).2 ∧
          Firebase.anonymous_result sdk = Throw e).
Proof.
  unfold Firebase.authenticateUser.
  destruct token as [t|]; simpl.
  - destruct (decide (t = "")) as [-> | Ht].
    + simpl. split; [| split].
      * split; [by left | intros _; repeat constructor].
      * intros t. rewrite elem_of_cons, elem_of_nil. naive_solver.
      * intros e. split; [| by intros [_ ?]].
        intros He. split; [repeat constructor | done].
    + rewrite (bool_decide_eq_false_2 _ Ht). simpl.
      destruct (Firebase.custom_token_result sdk) as [[]|e0]; simpl.
      * split; [| split].
        -- rewrite elem_of_cons, elem_of_nil. naive_solver.
        -- intros t'. rewrite elem_of_cons, elem_of_nil. naive_solver.
        -- intros e. rewrite elem_of_cons, elem_of_nil. naive_solver.
      * split; [| split].
        -- split; [intros _; right; by eexists | intros _; repeat constructor].
        -- intros t'. rewrite !elem_of_cons, elem_of_nil. naive_solver.
        -- intros e. split; [| by intros [_ ?]].
           intros He. split; [repeat constructor | done].
  - split; [| split].
    + split; [by left | intros _; repeat constructor].
    + intros t. rewrite elem_of_cons, elem_of_nil. naive_solver.
    + intros e. split; [| by intros [_ ?]].
      intros He. split; [repeat constructor | done].
Qed.

Lemma authenticateUser_no_signOut (token : option string)
    (sdk : Firebase.Sdk) :
  Firebase.signOut ∉ (Firebase.authenticateUser token sdk).2.
Proof.
  unfold Firebase.authenticateUser. intros Hin.
  destruct token as [t|]; simpl in Hin;
    [destruct (bool_decide (t = "")); simpl in Hin;
       [| destruct (Firebase.custom_token_result sdk) as [[]|e];
          simpl in Hin] |];
    repeat (apply elem_of_cons in Hin as [Hin | Hin]; [discriminate |]);
    by apply elem_of_nil in Hin.
Qed.

(** X19. [handleLogout] calls the SDK only when it was initialised. Then
    its first call, and its only call of that kind, is [signOut]; what
    follows are the calls of [authenticateUser] when the sign-out went
    through, and nothing when [signOut] is rejected. *)
Theorem handleLogout_reauthenticates_after_sign_out (a : Firebase.AppState)
    (token : option string) (sdk : Firebase.Sdk) :
  (Firebase.auth a = false → Firebase.handleLogout a token sdk = []) ∧
  (Firebase.auth a = true →
   ∃ rest, Firebase.handleLogout a token sdk = Firebase.signOut :: rest ∧
           (Firebase.signOut ∉ rest) ∧
           (Firebase.sign_out_result sdk = Normal () →
            rest = (Firebase.authenticateUser token sdk).2) ∧
           ((∃ e, Firebase.sign_out_result sdk = Throw e) → rest = [])) ∧
  (Firebase.signOut ∈ Firebase.handleLogout a token sdk
     ↔ Firebase.auth a = true) ∧
  (∀ c, c ∈ Firebase.handleLogout a token sdk → c ≠ Firebase.signOut →
        Firebase.sign_out_result sdk = Normal () ∧
        c ∈ (Firebase.authenticateUser token sdk).2) ∧
  ((∃ e, Firebase.sign_out_result sdk = Throw e) →
   Firebase.auth a = true →
   Firebase.handleLogout a token sdk = [Firebase.signOut]).
Proof.
  unfold Firebase.handleLogout.
  destruct (Firebase.auth a); simpl.
  - destruct (Firebase.sign_out_result sdk) as [[]|e0]; simpl.
    + split; [done |]. split.
      { intros _. eexists. split; [done |].
        split; [apply authenticateUser_no_signOut |].
        split; [done | by intros [e ?]]. }
      split; [split; [done | intros _; apply list_elem_of_here] |].
      split; [| by intros [e ?]].
      intros c Hc Hne. apply elem_of_cons in Hc as [-> | Hc]; done.
    + split; [done |]. split.
      { intros _. exists []. split; [done |].
        split; [by intros ?%elem_of_nil |]. by split. }
      split; [split; [done | intros _; apply list_elem_of_here] |].
      split; [| done].
      intros c Hc Hne. apply elem_of_cons in Hc as [-> | Hc]; [done |].
      by apply elem_of_nil in Hc.
  - split; [done |]. split; [done |].
    split; [split; [by intros ?%elem_of_nil | done] |].
    split; [| done].
    intros c Hc. by apply elem_of_nil in Hc.
Qed.

Lemma handleLogout_reauthenticates_after_sign_out_witness :
  let a := {| Firebase.view := Firebase.dashboard; Firebase.db := true;
              Firebase.auth := true; Firebase.userId := Some "u1";
              Firebase.isAuthReady := true |} in
  let sdk := {| Firebase.custom_token_result := Normal ();
                Firebase.anonymous_result := Normal ();
                Firebase.sign_out_result := Throw (Error "network") |} in
  (∃ e, Firebase.sign_out_result sdk = Throw e) ∧
  Firebase.auth a = true ∧
  Firebase.handleLogout a (Some "token") sdk = [Firebase.signOut].
Proof.
  intros a sdk.
  assert (∃ e, Firebase.sign_out_result sdk = Throw e) as He by by eexists.
  assert (Firebase.auth a = true) as Ha by reflexivity.
  split; [exact He |]. split; [exact Ha |].
  exact (proj2 (proj2 (proj2 (proj2
           (handleLogout_reauthenticates_after_sign_out a (Some "token") sdk))))
           He Ha).
Defined.
